(** * The XMPP broker of bumper: sessions, SASL PLAIN, stanza routing

    A shallow embedding of [bumper/xmppserver.py].  Every handler of
    [XMPPAsyncClient] is a function on an explicit world: the registry
    [XMPPServer.clients], the credentials store of [bumper.db] and the
    source of UUIDs.  What the handlers only call (the XML library, base64,
    the regular expression engine, the credentials store, [uuid.uuid4]) is
    an interface, [Externals]; logging is left out. *)

From Stdlib Require Import ZArith Bool Ascii String List Lia.
Import ListNotations.
Local Open Scope string_scope.
Local Open Scope Z_scope.

(** ** Python strings *)

Module Py.

(** The double quote and NUL characters. *)
Definition dq : string := String "034"%char "".
Definition NUL : ascii := "000"%char.

(** [q s] is [s] between double quotes. *)
Definition q (s : string) : string := dq ++ s ++ dq.

(** [prefix.startswith(s)] *)
Definition startswith (s p : string) : bool := String.prefix p s.

(** [sub in s] *)
Fixpoint contains (sub s : string) : bool :=
  String.prefix sub s ||
  match s with
  | EmptyString => false
  | String _ s' => contains sub s'
  end.

(** [s.find(sub)]: the first index of [sub] in [s], or -1. *)
Fixpoint find_from (sub s : string) (i : Z) : Z :=
  if String.prefix sub s then i
  else match s with
       | EmptyString => -1
       | String _ s' => find_from sub s' (i + 1)
       end.

Definition find (s sub : string) : Z := find_from sub s 0.

(** [s.split(c)] for a separator of one character. *)
Fixpoint split (s : string) (c : ascii) : list string :=
  match s with
  | EmptyString => [EmptyString]
  | String a s' =>
      if Ascii.eqb a c then EmptyString :: split s' c
      else match split s' c with
           | h :: t => String a h :: t
           | [] => [String a EmptyString]
           end
  end.

(** [s.replace(old, new)] for a non-empty [old]: occurrences are replaced
    from the left and do not overlap; [skip] counts the characters of a
    replaced occurrence still to be dropped. *)
Fixpoint replace_from (old new s : string) (skip : nat) : string :=
  match s with
  | EmptyString => EmptyString
  | String a s' =>
      match skip with
      | S k => replace_from old new s' k
      | O =>
          if String.prefix old s
          then new ++ replace_from old new s' (Nat.pred (String.length old))
          else String a (replace_from old new s' O)
      end
  end.

Definition replace (s old new : string) : string := replace_from old new s O.

(** [s.lower()] on ASCII text. *)
Definition lower_char (a : ascii) : ascii :=
  let n := nat_of_ascii a in
  if (Nat.leb 65 n && Nat.leb n 90)%bool then ascii_of_nat (n + 32) else a.

Fixpoint lower (s : string) : string :=
  match s with
  | EmptyString => EmptyString
  | String a s' => String (lower_char a) (lower s')
  end.

(** [s[start:stop]] for [start] and [stop] that are not negative. *)
Definition slice (s : string) (start stop : Z) : string :=
  String.substring (Z.to_nat start) (Z.to_nat (stop - start)) s.

(** [s.partition(c)[2]]: what follows the first [c], or nothing. *)
Fixpoint after_first (s : string) (c : ascii) : string :=
  match s with
  | EmptyString => EmptyString
  | String a s' => if Ascii.eqb a c then s' else after_first s' c
  end.

(** Truth value of a string, and of an optional one ([None] is false). *)
Definition truthy (s : string) : bool := negb (String.eqb s "").

Definition truthy_opt (o : option string) : bool :=
  match o with Some s => truthy s | None => false end.

(** [str(o)] as [format] prints it. *)
Definition str (o : option string) : string :=
  match o with Some s => s | None => "None" end.

(** [o == s] for a value that may be [None]. *)
Definition eq_opt (o : option string) (s : string) : bool :=
  match o with Some t => String.eqb t s | None => false end.

End Py.

(** ** XML elements ([xml.etree.ElementTree.Element]) *)

#[warnings="-register-all"]
Inductive Element : Type :=
  mkElement (tag : string) (attrib : list (string * string))
            (text : option string) (children : list Element).

Definition tag (x : Element) : string :=
  match x with mkElement t _ _ _ => t end.
Definition attrib (x : Element) : list (string * string) :=
  match x with mkElement _ a _ _ => a end.
Definition text (x : Element) : option string :=
  match x with mkElement _ _ t _ => t end.
Definition children (x : Element) : list Element :=
  match x with mkElement _ _ _ c => c end.

(** [attrib.get(k)] on the attribute dictionary. *)
Fixpoint dict_get (k : string) (d : list (string * string)) : option string :=
  match d with
  | [] => None
  | (k', v) :: d' => if String.eqb k' k then Some v else dict_get k d'
  end.

(** [xml.get(k)] *)
Definition get (x : Element) (k : string) : option string :=
  dict_get k (attrib x).

(** [k in xml.attrib] *)
Definition has_attrib (x : Element) (k : string) : bool :=
  match get x k with Some _ => true | None => false end.

(** [if "from" not in xml.attrib: xml.attrib["from"] = jid]: a new key goes
    to the end of the dictionary. *)
Definition set_default_from (x : Element) (jid : string) : Element :=
  if has_attrib x "from" then x
  else mkElement (tag x) (attrib x ++ [("from", jid)]) (text x) (children x).

(** The result of [ET.fromstring]: the root element, or a [ParseError]
    with its message. *)
Inductive ParseResult : Type :=
| Parsed (root : Element)
| ParseError (msg : string).

(** ** What the module calls and does not define

    The calls are taken to return: a store or a library that raises is
    outside the model, but for the parse and decoding errors that the
    handlers provide for. *)

Class Externals : Type := {
  (** the credentials store of [bumper.db]; [bot_get] and [client_get]
      give the ["did"] and the ["resource"] of the record they find *)
  DB : Type;
  bot_add : string -> string -> string -> string -> string -> DB -> DB;
  bot_get : string -> DB -> option string;
  bot_set_xmpp : string -> bool -> DB -> DB;
  check_authcode : string -> string -> DB -> bool;
  client_add : string -> string -> string -> DB -> DB;
  client_get : string -> DB -> option string;
  client_set_xmpp : string -> bool -> DB -> DB;
  (** [bumper.use_auth] *)
  use_auth : bool;
  (** [ET.fromstring] and [ET.tostring(xml).decode("utf-8")] *)
  fromstring : string -> ParseResult;
  tostring : Element -> string;
  (** [base64.b64decode(text).decode("utf-8")], [None] when it raises *)
  b64decode : string -> option string;
  (** [re.sub(r"(<\?xml[^>]+\?>)", r"<root>", text)] *)
  re_sub_xml_decl : string -> string;
  (** the successive results of [uuid.uuid4()], printed *)
  uuid4 : nat -> string
}.

(** ** Sessions ([XMPPAsyncClient]) *)

Definition IDLE : Z := 0.
Definition CONNECT : Z := 1.
Definition INIT : Z := 2.
Definition BIND : Z := 3.
Definition READY : Z := 4.
Definition DISCONNECT : Z := 5.
Definition UNKNOWN : Z := 0.
Definition BOT : Z := 1.
Definition CONTROLLER : Z := 2.

Definition server_id : string := "ecouser.net".

(** The coroutines a session hands to [asyncio.Task]. *)
Inductive Task : Type :=
| schedule_ping_task (time : Z)
| handle_starttls_task (data : string).

(** The transport of a connection, seen from the session: the arguments of
    its [write] calls, oldest first, and whether [close] was called. *)
Record Transport : Type := mkTransport {
  written : list string;
  closed : bool
}.

Record Session : Type := mkSession {
  type : Z;
  state : Z;
  transport : Transport;
  clientresource : string;
  devclass : string;
  bumper_jid : string;
  uid : string;
  TLSUpgraded : bool;
  tasks : list Task
}.

Definition with_type (v : Z) (s : Session) : Session :=
  mkSession v (state s) (transport s) (clientresource s) (devclass s)
            (bumper_jid s) (uid s) (TLSUpgraded s) (tasks s).
Definition with_state (v : Z) (s : Session) : Session :=
  mkSession (type s) v (transport s) (clientresource s) (devclass s)
            (bumper_jid s) (uid s) (TLSUpgraded s) (tasks s).
Definition with_transport (v : Transport) (s : Session) : Session :=
  mkSession (type s) (state s) v (clientresource s) (devclass s)
            (bumper_jid s) (uid s) (TLSUpgraded s) (tasks s).
Definition with_clientresource (v : string) (s : Session) : Session :=
  mkSession (type s) (state s) (transport s) v (devclass s)
            (bumper_jid s) (uid s) (TLSUpgraded s) (tasks s).
Definition with_devclass (v : string) (s : Session) : Session :=
  mkSession (type s) (state s) (transport s) (clientresource s) v
            (bumper_jid s) (uid s) (TLSUpgraded s) (tasks s).
Definition with_bumper_jid (v : string) (s : Session) : Session :=
  mkSession (type s) (state s) (transport s) (clientresource s) (devclass s)
            v (uid s) (TLSUpgraded s) (tasks s).
Definition with_uid (v : string) (s : Session) : Session :=
  mkSession (type s) (state s) (transport s) (clientresource s) (devclass s)
            (bumper_jid s) v (TLSUpgraded s) (tasks s).
Definition with_TLSUpgraded (v : bool) (s : Session) : Session :=
  mkSession (type s) (state s) (transport s) (clientresource s) (devclass s)
            (bumper_jid s) (uid s) v (tasks s).
Definition spawn (t : Task) (s : Session) : Session :=
  mkSession (type s) (state s) (transport s) (clientresource s) (devclass s)
            (bumper_jid s) (uid s) (TLSUpgraded s) (tasks s ++ [t]).

(** [XMPPAsyncClient.__init__]: the session of a fresh transport. *)
Definition new_client : Session :=
  mkSession UNKNOWN IDLE (mkTransport [] false) "" "" "" "" false [].

(** [send]: one [write] on the transport.  The transports the event loop
    hands over ([create_server], [start_tls]) are write transports, so the
    [isinstance] guard of the source holds. *)
Definition send (command : string) (s : Session) : Session :=
  with_transport
    (mkTransport (written (transport s) ++ [command]) (closed (transport s))) s.

(** What a session was sent. *)
Definition sent (s : Session) : list string := written (transport s).

(** ** The handlers that touch one session and the credentials store *)

Section Server.

Context {E : Externals}.

Import Py.

(** [getattr(XMPPAsyncClient, name)] where the class attribute is a number
    ([TLSUpgraded = False] counts as 0); on any other name the lookup or the
    comparison that follows raises. *)
Definition getattr (name : string) : option Z :=
  if String.eqb name "IDLE" then Some IDLE
  else if String.eqb name "CONNECT" then Some CONNECT
  else if String.eqb name "INIT" then Some INIT
  else if String.eqb name "BIND" then Some BIND
  else if String.eqb name "READY" then Some READY
  else if String.eqb name "DISCONNECT" then Some DISCONNECT
  else if String.eqb name "UNKNOWN" then Some UNKNOWN
  else if String.eqb name "BOT" then Some BOT
  else if String.eqb name "CONTROLLER" then Some CONTROLLER
  else if String.eqb name "TLSUpgraded" then Some 0
  else None.

(** [_disconnect]: clear the online flags, close the transport. *)
Definition _disconnect (s : Session) (d : DB) : Session * DB :=
  let d1 := match bot_get (uid s) d with
            | Some did => bot_set_xmpp did false d
            | None => d
            end in
  let d2 := match client_get (clientresource s) d1 with
            | Some resource => client_set_xmpp resource false d1
            | None => d1
            end in
  (with_transport (mkTransport (written (transport s)) true) s, d2).

(** [set_state]: the exception of an illegal change is caught and logged
    inside the method, which then returns. *)
Definition set_state (name : string) (s : Session) (d : DB) : Session * DB :=
  match getattr name with
  | None => (s, d)
  | Some new_state =>
      if state s >? new_state then (s, d)
      else
        let s' := with_state new_state s in
        if new_state =? 5 then _disconnect s' d else (s', d)
  end.

(** [_tag_strip_uri] *)
Definition _tag_strip_uri (t : string) : string :=
  match t with
  | String "{" rest => after_first rest "}"
  | _ => t
  end.

Definition sasl_success : string :=
  "<success xmlns=" ++ q "urn:ietf:params:xml:ns:xmpp-sasl" ++ "/>".
Definition sasl_response : string :=
  "<response xmlns=" ++ q "urn:ietf:params:xml:ns:xmpp-sasl" ++ "/>".

(** The fields [_handle_sasl_auth] reads off the decoded payload: the user
    name, the resource when there is one, the authcode; [None] when
    [saslauth[0].split("\x00")[1]] raises [IndexError]. *)
Definition sasl_fields (decoded : string)
  : option (string * option string * string) :=
  let saslauth := split decoded "/" in
  let fields := split (hd "" saslauth) NUL in
  match nth_error fields 1 with
  | None => None
  | Some username =>
      let resource :=
        match nth_error saslauth 1 with
        | Some r => Some r
        | None => nth_error fields 2
        end in
      let authcode :=
        match nth_error saslauth 2 with
        | Some a => a
        | None => ""
        end in
      Some (username, resource, authcode)
  end.

(** [_handle_sasl_auth] *)
Definition _handle_sasl_auth (xml : Element) (s : Session) (d : DB)
  : Session * DB :=
  match text xml with
  | None => (s, d)
  | Some t =>
      if negb (truthy t) then (s, d)
      else
        match b64decode t with
        | None => (s, d)
        | Some decoded =>
            match sasl_fields decoded with
            | None => (s, d)
            | Some (username, resource, authcode) =>
                let s1 := with_uid username s in
                let s2 := match resource with
                          | Some r => with_clientresource r s1
                          | None => s1
                          end in
                if truthy (devclass s2) then
                  let d1 := bot_add (uid s2) (uid s2) (devclass s2)
                                    "atom" "eco-legacy" d in
                  set_state "INIT" (send sasl_success (with_type BOT s2)) d1
                else if check_authcode (uid s2) authcode d || negb use_auth then
                  let s3 := with_type CONTROLLER s2 in
                  let d1 := client_add (uid s3) "bumper" (clientresource s3) d in
                  let (s4, d2) := set_state "INIT" s3 d1 in
                  (send sasl_success s4, d2)
                else (send sasl_response s2, d)
            end
        end
  end.

Definition bind_result (id : option string) (jid : string) : string :=
  "<iq type=" ++ q "result" ++ " id=" ++ q (str id) ++ "><bind xmlns="
  ++ q "urn:ietf:params:xml:ns:xmpp-bind" ++ "><jid>" ++ jid
  ++ "</jid></bind></iq>".

(** [_handle_bind] *)
Definition _handle_bind (xml : Element) (s : Session) (d : DB)
  : Session * DB :=
  let d1 := match bot_get (uid s) d with
            | Some did => bot_set_xmpp did true d
            | None => d
            end in
  let d2 := match client_get (clientresource s) d1 with
            | Some resource => client_set_xmpp resource true d1
            | None => d1
            end in
  let finish (s' : Session) :=
    let (s'', d3) := set_state "BIND" s' d2 in
    (send (bind_result (get xml "id") (bumper_jid s')) s'', d3) in
  match children xml with
  | [] => (s, d2)
  | bind :: _ =>
      if truthy (devclass s) then
        finish (with_bumper_jid
                  (uid s ++ "@" ++ devclass s ++ ".ecorobot.net/atom") s)
      else
        match children bind with
        | r :: _ =>
            match text r with
            | None => (s, d2)
            | Some t =>
                if negb (truthy t) then (s, d2)
                else
                  finish (with_bumper_jid
                            (uid s ++ "@" ++ server_id ++ "/" ++ t)
                            (with_clientresource t s))
            end
        | [] => finish (with_bumper_jid (uid s ++ "@" ++ server_id) s)
        end
  end.

(** [_handle_session] *)
Definition _handle_session (xml : Element) (s : Session) (d : DB)
  : Session * DB :=
  let res := "<iq type=" ++ q "result" ++ " id=" ++ q (str (get xml "id"))
             ++ " />" in
  let (s1, d1) := set_state "READY" s d in
  (spawn (schedule_ping_task 30) (send res s1), d1).

Definition dummy_presence (jid : string) : string :=
  "<presence to=" ++ q jid ++ "> dummy </presence>".

(** [_handle_presence] *)
Definition _handle_presence (xml : Element) (s : Session) (d : DB)
  : Session * DB :=
  if match children xml with
     | c :: _ => String.eqb (tag c) "status"
     | [] => false
     end
  then
    let s1 := send (dummy_presence (bumper_jid s)) s in
    if type s =? BOT then
      (send ("<iq type=" ++ q "set" ++ " id=" ++ q "14" ++ " to="
             ++ q (bumper_jid s) ++ " from=" ++ q server_id
             ++ "><query xmlns=" ++ q "com:ctl" ++ "><ctl td="
             ++ q "GetDeviceInfo" ++ "/></query></iq>") s1, d)
    else (s1, d)
  else if eq_opt (get xml "type") "available" then
    (send (dummy_presence (bumper_jid s)) s, d)
  else if eq_opt (get xml "type") "unavailable" then
    set_state "DISCONNECT" s d
  else (send (dummy_presence (bumper_jid s)) s, d).

(** [schedule_ping] up to its [await]: a ping unless disconnected. *)
Definition schedule_ping (s : Session) : Session :=
  if negb (state s =? 5) then
    send ("<iq from='" ++ server_id ++ "' to='" ++ bumper_jid s
          ++ "' id='s2c1' type='get'><ping xmlns='urn:xmpp:ping'/></iq>") s
  else s.

(** [_handle_starttls] up to its [await]. *)
Definition _handle_starttls (s : Session) : Session :=
  if negb (TLSUpgraded s) then
    send "<proceed xmlns='urn:ietf:params:xml:ns:xmpp-tls'/>"
         (with_TLSUpgraded true s)
  else s.

(** ** The world: the registry, the store, the UUIDs drawn so far

    [XMPPServer.clients] is [before ++ self :: after]: the session whose
    handler runs is in the registry from [connection_made] to
    [connection_lost], once, and the loops over the registry meet it among
    its peers. *)

Record World : Type := mkWorld {
  before : list Session;
  self : Session;
  after : list Session;
  db : DB;
  uuids_drawn : nat
}.

Definition clients (w : World) : list Session :=
  before w ++ self w :: after w.

(** A method of [self] that touches nothing else. *)
Definition on_self (f : Session -> Session) (w : World) : World :=
  mkWorld (before w) (f (self w)) (after w) (db w) (uuids_drawn w).

(** A method of [self] that also calls the credentials store. *)
Definition on_self_db (f : Session -> DB -> Session * DB) (w : World) : World :=
  let (s, d) := f (self w) (db w) in
  mkWorld (before w) s (after w) d (uuids_drawn w).

(** [for client in XMPPServer.clients: client = f(client)] *)
Definition for_clients (f : Session -> Session) (w : World) : World :=
  mkWorld (map f (before w)) (f (self w)) (map f (after w))
          (db w) (uuids_drawn w).

(** [for client in XMPPServer.clients: if cond(client): client.send(msg)] *)
Definition send_where (cond : Session -> bool) (msg : string) (w : World)
  : World :=
  for_clients (fun client => if cond client then send msg client else client) w.

Definition not_implemented (id : option string) : string :=
  "<iq type=" ++ q "error" ++ " id=" ++ q (str id) ++ "><error type="
  ++ q "cancel" ++ " code=" ++ q "501"
  ++ "><feature-not-implemented xmlns="
  ++ q "urn:ietf:params:xml:ns:xmpp-stanzas" ++ "/></error></iq>".

(** The clean-up of a serialized stanza carrying a [com:ctl] query. *)
Definition clean_ctl (s : string) : string :=
  replace
    (replace
       (replace (replace s "xmlns:ns0=" "xmlns=") "ns0:" "")
       ("iq xmlns=" ++ q "com:ctl") "iq")
    "<query" ("<query xmlns=" ++ q "com:ctl").

(** The clean-up of a serialized ping. *)
Definition clean_ping (s : string) : string :=
  replace
    (replace
       (replace (replace s "xmlns:ns0=" "xmlns=") "ns0:" "")
       ("iq xmlns=" ++ q "urn:xmpp:ping") "iq")
    "<ping" ("<ping xmlns=" ++ q "urn:xmpp:ping").

(** [client.bumper_jid != self.bumper_jid and client.state == client.READY] *)
Definition peer_ready (me client : Session) : bool :=
  negb (String.eqb (bumper_jid client) (bumper_jid me))
  && (state client =? READY).

(** [client.uid.lower() in to.lower()] *)
Definition uid_in (client : Session) (to : string) : bool :=
  contains (lower (uid client)) (lower to).

Definition rl_ack (xml : Element) (me : Session) : string :=
  "<iq id=" ++ q (str (get xml "id")) ++ " to="
  ++ q (uid me ++ "@" ++ server_id ++ "/" ++ clientresource me)
  ++ " from=" ++ q "rl.ecorobot.net" ++ " type=" ++ q "result" ++ "/>".

(** The recipients of a control query: ready peers that are bots and whose
    uid occurs in [to]. *)
Definition ctl_recipient (me : Session) (ctl_to : option string)
  (client : Session) : bool :=
  peer_ready me client &&
  ((type client =? BOT) && truthy_opt ctl_to) &&
  match ctl_to with
  | Some to => uid_in client to
  | None => false
  end.

(** [_handle_ctl] *)
Definition _handle_ctl (xml : Element) (data : string) (w : World) : World :=
  let me := self w in
  if contains "roster" data then
    on_self (send (not_implemented (get xml "id"))) w
  else if contains "disco#items" data then
    on_self (send (not_implemented (get xml "id"))) w
  else if contains "disco#info" data then
    on_self (send (not_implemented (get xml "id"))) w
  else
    let w1 :=
      if eq_opt (get xml "type") "set"
         && (contains "com:sf" data && eq_opt (get xml "to") "rl.ecorobot.net")
      then on_self (send (rl_ack xml me)) w
      else w in
    match children xml with
    | [] => w1
    | query :: _ =>
        if match children query with
           | ctl :: _ => truthy_opt (get ctl "admin") && (type me =? BOT)
           | [] => false
           end
        then w1
        else
          let ctl_to := get xml "to" in
          let rxmlstring :=
            clean_ctl (tostring (set_default_from xml (bumper_jid me))) in
          send_where (ctl_recipient me ctl_to) rxmlstring w1
    end.

(** The recipients of a forwarded ping. *)
Definition ping_recipient (me : Session) (pingto : option string)
  (client : Session) : bool :=
  peer_ready me client && truthy_opt pingto &&
  match pingto with
  | Some to => uid_in client to
  | None => false
  end.

(** The answer to a ping addressed to the server. *)
Definition ping_result (xml : Element) : string :=
  "<iq type=" ++ q "result" ++ " id=" ++ q (str (get xml "id")) ++ " from="
  ++ q (str (get xml "to")) ++ " />".

(** [_handle_ping] *)
Definition _handle_ping (xml : Element) (w : World) : World :=
  let me := self w in
  let pingto := get xml "to" in
  if match pingto with
     | Some to => truthy to && (find to "@" =? -1)
     | None => false
     end
  then on_self (send (ping_result xml)) w
  else
    let pingstring :=
      clean_ping (tostring (set_default_from xml (bumper_jid me))) in
    send_where (ping_recipient me pingto) pingstring w.

(** The admin user a bot names with [errno='103']: read off the [error]
    attribute of the control element, else its [admin] attribute; [None]
    when the element has neither and the name stays unbound. *)
Definition adminuser_of (ctl : Element) : option string :=
  match get ctl "error" with
  | Some ctlerr =>
      Some (replace (replace ctlerr "permission denied, please contact " "")
                    " " "")
  | None => get ctl "admin"
  end.

Definition adduser (id adminuser jid newuser : string) : string :=
  "<iq type=" ++ q "set" ++ " id=" ++ q id ++ " from=" ++ q adminuser
  ++ " to=" ++ q jid ++ "><query xmlns=" ++ q "com:ctl" ++ "><ctl td="
  ++ q "AddUser" ++ " id=" ++ q "0000" ++ " jid=" ++ q newuser
  ++ " /></query></iq>".

Definition adduseracs (id adminuser jid newuser : string) : string :=
  "<iq type=" ++ q "set" ++ " id=" ++ q id ++ " from=" ++ q adminuser
  ++ " to=" ++ q jid ++ "><query xmlns=" ++ q "com:ctl" ++ "><ctl td="
  ++ q "SetAC" ++ " id=" ++ q "1111" ++ " jid=" ++ q newuser
  ++ "><acs><ac name=" ++ q "userman" ++ " allow=" ++ q "1"
  ++ "/><ac name=" ++ q "setting" ++ " allow=" ++ q "1"
  ++ "/><ac name=" ++ q "clean" ++ " allow=" ++ q "1"
  ++ "/></acs></ctl></query></iq>".

Definition getuserinfo (id adminuser jid : string) : string :=
  "<iq type=" ++ q "set" ++ " id=" ++ q id ++ " from=" ++ q adminuser
  ++ " to=" ++ q jid ++ "><query xmlns=" ++ q "com:ctl" ++ "><ctl td="
  ++ q "GetUserInfo" ++ " id=" ++ q "4444" ++ " /><UserInfos/></query></iq>".

(** The three stanzas of the enrollment, each with its own [uuid4()]. *)
Definition enroll (adminuser ctl_to : string) (w : World) : World :=
  let me := self w in
  let n := uuids_drawn w in
  let newuser := hd "" (split ctl_to "/") in
  let s1 := send (adduser (uuid4 n) adminuser (bumper_jid me) newuser) me in
  let s2 := send (adduseracs (uuid4 (S n)) adminuser (bumper_jid me) newuser)
                 s1 in
  let s3 := send (getuserinfo (uuid4 (S (S n))) adminuser (bumper_jid me)) s2 in
  mkWorld (before w) s3 (after w) (db w) (S (S (S n))).

(** The destination [_handle_result] routes to: [to] as it is when it is
    not empty and has no [@]; else the part of [to] before its first [@],
    at [ecouser.net]; [None] when the assertion on [ctl_to] fails. *)
Definition result_dest (to ctl_to : option string) : option string :=
  match
    match to with
    | Some t => if truthy t && (find t "@" =? -1) then Some t else None
    | None => None
    end
  with
  | Some t => Some t
  | None =>
      match ctl_to with
      | Some c =>
          if truthy c then Some (hd "" (split c "@") ++ "@ecouser.net")
          else None
      | None => None
      end
  end.

(** The recipients of a result routed to [dest]. *)
Definition result_recipient (me : Session) (dest : string) (client : Session)
  : bool :=
  peer_ready me client &&
  (negb (contains "@" dest) || uid_in client dest).

(** [_handle_result] *)
Definition _handle_result (xml : Element) (data : string) (w : World)
  : World :=
  let me := self w in
  let ctl_to := get xml "to" in
  let xml := set_default_from xml (bumper_jid me) in
  if contains "errno='103'" data then
    if type me =? BOT then
      match children xml with
      | [] => w
      | xquery :: _ =>
          match children xquery with
          | [] => w
          | ctl :: _ =>
              match ctl_to with
              | None => w
              | Some to =>
                  if negb (truthy to) then w
                  else
                    match adminuser_of ctl with
                    | None => w
                    | Some adminuser =>
                        if negb (startswith adminuser "fuid_"
                                 || startswith adminuser "fusername_"
                                 || use_auth)
                        then enroll adminuser to w
                        else w
                    end
              end
          end
      end
    else w
  else
    let rxmlstring := clean_ctl (tostring xml) in
    let w1 :=
      if (type me =? BOT) && eq_opt ctl_to "de.ecorobot.net"
      then for_clients (send rxmlstring) w
      else w in
    match result_dest (get xml "to") ctl_to with
    | None => w1
    | Some dest => send_where (result_recipient me dest) rxmlstring w1
    end.

(** The tag of the first child without its namespace, [None] for an
    element without children. *)
Definition first_child_tag (xml : Element) : option string :=
  match children xml with
  | c :: _ => Some (_tag_strip_uri (tag c))
  | [] => None
  end.

(** [_handle_iq] *)
Definition _handle_iq (xml : Element) (data : string) (w : World) : World :=
  let child := first_child_tag xml in
  if String.eqb (tag xml) "iq" then
    if eq_opt child "bind" then on_self_db (_handle_bind xml) w
    else if eq_opt child "session" then on_self_db (_handle_session xml) w
    else if eq_opt child "ping" then _handle_ping xml w
    else if eq_opt child "query" then
      if type (self w) =? BOT then _handle_result xml data w
      else _handle_ctl xml data w
    else if eq_opt (get xml "type") "result" then _handle_result xml data w
    else if eq_opt (get xml "type") "set" then _handle_result xml data w
    else w
  else w.

Definition stream_header : string :=
  "<stream:stream xmlns:stream=" ++ q "http://etherx.jabber.org/streams"
  ++ " xmlns=" ++ q "jabber:client" ++ " version=" ++ q "1.0" ++ " id="
  ++ q "1" ++ " from=" ++ q server_id ++ ">".

Definition mechanisms : string :=
  "<mechanisms xmlns=" ++ q "urn:ietf:params:xml:ns:xmpp-sasl"
  ++ "><mechanism>PLAIN</mechanism></mechanisms>".

Definition features_starttls : string :=
  "<stream:features><starttls xmlns=" ++ q "urn:ietf:params:xml:ns:xmpp-tls"
  ++ "><required/></starttls>" ++ mechanisms ++ "</stream:features>".

Definition features_sasl : string :=
  "<stream:features>" ++ mechanisms ++ "</stream:features>".

Definition features_bind : string :=
  "<stream:features><bind xmlns=" ++ q "urn:ietf:params:xml:ns:xmpp-bind"
  ++ "/><session xmlns=" ++ q "urn:ietf:params:xml:ns:xmpp-session"
  ++ "/></stream:features>".

(** [_handle_connect] *)
Definition _handle_connect (data : string) (xml : option Element)
  (s : Session) (d : DB) : Session * DB :=
  if state s =? CONNECT then
    match xml with
    | None =>
        if find data "jabber:client" >? -1 then
          let sc := find data "to=" in
          let ec := find data ".ecorobot.net" in
          let s1 := if ec >? -1 then with_devclass (slice data (sc + 4) ec) s
                    else s in
          let s2 := send stream_header s1 in
          if negb (TLSUpgraded s2) then (send features_starttls s2, d)
          else (send features_sasl s2, d)
        else (send "</stream>" s, d)
    | Some x =>
        if contains "urn:ietf:params:xml:ns:xmpp-sasl" (tag x)
        then _handle_sasl_auth x s d
        else (s, d)
    end
  else if state s =? INIT then
    match xml with
    | None =>
        if find data "jabber:client" >? -1
        then (send features_bind (send stream_header s), d)
        else (s, d)
    | Some x =>
        if String.eqb (tag x) "iq" then
          if eq_opt (first_child_tag x) "bind" then _handle_bind x s d
          else (s, d)
        else (s, d)
    end
  else (s, d).

(** The elements of [root.iter()] in document order, each handled as
    [parse_data] does; an element handed to a handler is cleared after it,
    so its children are not met. *)
Fixpoint handle_item (newdata : string) (item : Element) (w : World) : World :=
  match item with
  | mkElement t _ _ kids =>
      let descend (w' : World) : World :=
        fold_left (fun acc kid => handle_item newdata kid acc) kids w' in
      if String.eqb t "root" then descend w
      else if String.eqb t "iq" then _handle_iq item newdata w
      else if contains "auth" t then
        if contains "urn:ietf:params:xml:ns:xmpp-sasl" t
        then on_self_db (_handle_sasl_auth item) w
        else descend w
      else if contains "-tls" t then
        descend (if negb (TLSUpgraded (self w))
                 then on_self (spawn (handle_starttls_task newdata)) w
                 else w)
      else if contains "presence" t then on_self_db (_handle_presence item) w
      else descend w
  end.

(** [newdata]: the chunk under an artificial root. *)
Definition wrap_root (data : string) : string :=
  if startswith data "<?xml" then re_sub_xml_decl data ++ "</root>"
  else "<root>" ++ data ++ "</root>".

(** A stream opening is handled in the states CONNECT and INIT only. *)
Definition handle_stream_open (newdata : string) (w : World) : World :=
  if (state (self w) =? CONNECT) || (state (self w) =? INIT)
  then on_self_db (_handle_connect newdata None) w
  else w.

(** [parse_data], on a chunk that decodes as UTF-8. *)
Definition parse_data (data : string) (w : World) : World :=
  let newdata := wrap_root data in
  match fromstring newdata with
  | Parsed root => handle_item newdata root w
  | ParseError msg =>
      if contains "no element found" msg then
        if contains "<stream:stream " newdata
        then handle_stream_open newdata w
        else w
      else if contains "not well-formed (invalid token)" msg then
        if negb (contains "</stream:stream>" newdata) then w
        else on_self (send "</stream:stream>") w
      else
        if contains "<stream:stream" newdata
        then handle_stream_open newdata w
        else if negb (contains "</stream:stream>" newdata) then w
        else on_self_db (set_state "DISCONNECT")
                        (on_self (send "</stream:stream>") w)
  end.

(** ** The connection events of [XMPPServer_Protocol] *)

(** [connection_made] on a new connection: the session joins the registry
    in state CONNECT. *)
Definition connection_made (registry : list Session) : list Session :=
  registry ++ [with_state CONNECT new_client].

(** [connection_made] after the TLS upgrade: the transport is replaced by
    one that is open; the record of what was written to the peer goes on. *)
Definition connection_upgraded (s : Session) : Session :=
  with_transport (mkTransport (written (transport s)) false) s.

(** [connection_lost]: the session leaves the registry, then disconnects. *)
Definition connection_lost (w : World) : list Session * (Session * DB) :=
  ((before w ++ after w)%list, set_state "DISCONNECT" (self w) (db w)).

End Server.

(** ** Induction on elements, through the lists of children *)

Section ElementInduction.

Variable P : Element -> Prop.

Hypothesis step :
  forall t a x kids, Forall P kids -> P (mkElement t a x kids).

Fixpoint Element_nested_ind (e : Element) : P e :=
  match e with
  | mkElement t a x kids =>
      step t a x kids
           ((fix all (l : list Element) : Forall P l :=
               match l with
               | [] => Forall_nil P
               | k :: l' => Forall_cons k (Element_nested_ind k) (all l')
               end) kids)
  end.

End ElementInduction.

(** ** A concrete environment

    A store that is the list of the calls made to it, a parser that knows
    a few chunks, a printer of elements, and numbered UUIDs: enough to run
    the handlers on examples. *)

Module Sample.

Import Py.

Inductive DbCall : Type :=
| BotAdd (sn did devclass resource company : string)
| BotSetXmpp (did : string) (online : bool)
| ClientAdd (userid realm resource : string)
| ClientSetXmpp (resource : string) (online : bool).

Definition is_bot (sn : string) (c : DbCall) : bool :=
  match c with BotAdd sn' _ _ _ _ => String.eqb sn' sn | _ => false end.

Definition is_client (resource : string) (c : DbCall) : bool :=
  match c with ClientAdd _ _ r => String.eqb r resource | _ => false end.

(** The only authcode on file: [secret], of [user42]. *)
Definition authcode_ok (uid code : string) : bool :=
  String.eqb uid "user42" && String.eqb code "secret".

Fixpoint print_attrib (a : list (string * string)) : string :=
  match a with
  | [] => ""
  | (k, v) :: a' => " " ++ k ++ "=" ++ q v ++ print_attrib a'
  end.

Fixpoint print_element (e : Element) : string :=
  match e with
  | mkElement t a x kids =>
      match x, kids with
      | None, [] => "<" ++ t ++ print_attrib a ++ " />"
      | _, _ =>
          "<" ++ t ++ print_attrib a ++ ">"
          ++ match x with Some s => s | None => "" end
          ++ fold_right (fun k acc => print_element k ++ acc) "" kids
          ++ "</" ++ t ++ ">"
      end
  end.

Definition lone_close : string := "</stream:stream>".

Definition session_iq : Element :=
  mkElement "iq" [("id", "x"); ("type", "set")] None
            [mkElement "session" [] None []].

Definition session_chunk : string :=
  "<iq id=" ++ q "x" ++ " type=" ++ q "set" ++ "><session/></iq>".

(** What [ET.fromstring] answers on the chunks of the examples; expat
    reports a lone closing tag under the root as mismatched. *)
Definition parse (newdata : string) : ParseResult :=
  if String.eqb newdata ("<root>" ++ lone_close ++ "</root>")
  then ParseError "mismatched tag: line 1, column 8"
  else if String.eqb newdata ("<root>" ++ session_chunk ++ "</root>")
  then Parsed (mkElement "root" [] None [session_iq])
  else ParseError "syntax error: line 1, column 0".

(** The payloads of the examples, decoded. *)
Definition decode (payload : string) : option string :=
  if String.eqb payload "AHVzZXI0MgBzZWNyZXQ="
  then Some (String NUL "user42" ++ String NUL "secret")
  else if String.eqb payload "AFNOMTIzAHB3"
  then Some (String NUL "SN123" ++ String NUL "pw")
  else if String.eqb payload "AHVzZXI0Mi9tb2JpbGUvc2VjcmV0"
  then Some (String NUL "user42/mobile/secret")
  else if String.eqb payload "dXNlcjQy"
  then Some "user42"
  else None.

Definition digit (n : nat) : string :=
  String (ascii_of_nat (48 + Nat.modulo n 10)) "".

Definition uuid (n : nat) : string :=
  "00000000-0000-4000-8000-00000000000" ++ digit n.

Definition env (auth : bool) : Externals := {|
  DB := list DbCall;
  bot_add := fun sn did devclass resource company d =>
               (d ++ [BotAdd sn did devclass resource company])%list;
  bot_get := fun sn d => if existsb (is_bot sn) d then Some sn else None;
  bot_set_xmpp := fun did online d => (d ++ [BotSetXmpp did online])%list;
  check_authcode := fun uid code _ => authcode_ok uid code;
  client_add := fun userid realm resource d =>
                  (d ++ [ClientAdd userid realm resource])%list;
  client_get := fun resource d =>
                  if existsb (is_client resource) d then Some resource
                  else None;
  client_set_xmpp := fun resource online d =>
                       (d ++ [ClientSetXmpp resource online])%list;
  use_auth := auth;
  fromstring := parse;
  tostring := print_element;
  b64decode := decode;
  re_sub_xml_decl := fun s => s;
  uuid4 := uuid
|}.

(** A session as it stands after bind and session establishment. *)
Definition ready (kind : Z) (uid devclass resource jid : string)
  : Session :=
  mkSession kind READY (mkTransport [] false) resource devclass jid uid
            true [].

Definition bot1 : Session :=
  ready BOT "SN123" "xyz" "pw" "SN123@xyz.ecorobot.net/atom".

Definition ctl1 : Session :=
  ready CONTROLLER "user42" "" "mobile" "user42@ecouser.net/mobile".

Definition ctl2 : Session :=
  ready CONTROLLER "user77" "" "mobile" "user77@ecouser.net/mobile".

(** A bot whose serial number happens to occur in [rl.ecorobot.net]. *)
Definition bot2 : Session :=
  ready BOT "bot" "xyz" "pw" "bot@xyz.ecorobot.net/atom".

(** Sessions that have only connected: a controller, and a bot once its
    stream opening named [xyz.ecorobot.net]. *)
Definition fresh : Session := with_state CONNECT new_client.

Definition fresh_bot : Session := with_devclass "xyz" fresh.

Definition world (auth : bool) (l : list Session) (me : Session)
  (r : list Session) : @World (env auth) :=
  @mkWorld (env auth) l me r [] O.

Definition auth_element (payload : string) : Element :=
  mkElement "{urn:ietf:params:xml:ns:xmpp-sasl}auth" [("mechanism", "PLAIN")]
            (Some payload) [].

(** The answer of a bot to a query, addressed to [to]. *)
Definition iq_result (to : string) : Element :=
  mkElement "iq" [("id", "q1"); ("type", "result"); ("to", to)] None
            [mkElement "query" []  None
               [mkElement "ctl" [("ret", "ok")] None []]].

Definition chunk_of (x : Element) : string :=
  "<root>" ++ print_element x ++ "</root>".

(** The answer of a bot that denies permission and names its owner. *)
Definition iq_denied (to : string) : Element :=
  mkElement "iq" [("id", "q1"); ("type", "result"); ("to", to)] None
            [mkElement "query" [] None
               [mkElement "ctl"
                  [("errno", "103");
                   ("error", "permission denied, please contact ownerA")]
                  None []]].

Definition denied_chunk (to : string) : string :=
  "<root><iq id='q1' type='result' to='" ++ to ++ "'>"
  ++ "<query xmlns='com:ctl'><ctl errno='103' "
  ++ "error='permission denied, please contact ownerA'/></query></iq></root>".

(** The [com:sf] set that the Android application sends to
    [rl.ecorobot.net]. *)
Definition iq_rl : Element :=
  mkElement "iq" [("id", "7"); ("type", "set"); ("to", "rl.ecorobot.net")]
            None [mkElement "query" [] None []].

Definition rl_chunk : string :=
  "<root><iq id='7' type='set' to='rl.ecorobot.net'>"
  ++ "<query xmlns='com:sf'/></iq></root>".

End Sample.

(** ** The events of a session's life, and what the properties speak of *)

Section Life.

Context {E : Externals}.

(** What the event loop does for a session between [connection_made] and
    [connection_lost]: a chunk arrives, a ping falls due, the STARTTLS task
    runs, the upgraded transport is installed. *)
Inductive Event : Type :=
| data_received (data : string)
| ping_due
| starttls_due
| tls_established.

Definition handle_event (e : Event) (w : World) : World :=
  match e with
  | data_received data => parse_data data w
  | ping_due => on_self schedule_ping w
  | starttls_due => on_self _handle_starttls w
  | tls_established => on_self connection_upgraded w
  end.

Definition run (events : list Event) (w : World) : World :=
  fold_left (fun acc e => handle_event e acc) events w.

(** From [w] to [w'] no peer changed state and [self] did not go back. *)
Definition advances (w w' : World) : Prop :=
  map state (before w') = map state (before w) /\
  map state (after w') = map state (after w) /\
  state (self w) <= state (self w').

(** A session-and-store method under which the state does not decrease. *)
Definition grows (f : Session -> DB -> Session * DB) : Prop :=
  forall s d, state s <= state (fst (f s d)).

(** [c'] is [c], or [c] after one more stanza, and then [c] was a ready
    session under another JID than [me]. *)
Definition forwarded_to (me c c' : Session) : Prop :=
  c' = c \/
  ((exists F, c' = send F c) /\
   bumper_jid c <> bumper_jid me /\ state c = READY).

(** The same for every peer of the registry. *)
Definition peers_forwarded (me : Session) (w w' : World) : Prop :=
  Forall2 (forwarded_to me) (before w) (before w') /\
  Forall2 (forwarded_to me) (after w) (after w').

(** [deliver cond msg]: what the registry becomes when exactly the
    sessions under [cond] are sent [msg], once each. *)
Definition deliver (cond : Session -> bool) (msg : string)
  (registry : list Session) : list Session :=
  map (fun c => if cond c then send msg c else c) registry.

End Life.

(** ** Shutdown, and what the further properties speak of *)

Section Further.

Context {E : Externals}.

(** [XMPPServer.disconnect]: [_disconnect] on every session of the
    registry, in order (the exit flag and the cancelled server task are
    left out). *)
Fixpoint disconnect (registry : list Session) (d : DB)
  : list Session * DB :=
  match registry with
  | [] => ([], d)
  | client :: rest =>
      let (client', d1) := _disconnect client d in
      let (rest', d2) := disconnect rest d1 in
      (client' :: rest', d2)
  end.

(** [sends l s]: [s] once the stanzas of [l] were written to it, and
    nothing else happened to it. *)
Definition sends (l : list string) (s : Session) : Session :=
  fold_left (fun acc msg => send msg acc) l s.

(** [c'] is [c] but for stanzas written to it. *)
Definition only_sent (c c' : Session) : Prop := exists l, c' = sends l c.

(** What a chunk may do to the session that receives it: the state stays
    or rises, to DISCONNECT at most; the TLS flag stays; the record of
    what was written grows at its end; a closed transport stays closed, and
    the transport of a session brought to DISCONNECT is closed. *)
Definition evolves (s s' : Session) : Prop :=
  (state s' = state s \/ (state s < state s' /\ state s' <= DISCONNECT)) /\
  TLSUpgraded s' = TLSUpgraded s /\
  (exists l, sent s' = (sent s ++ l)%list) /\
  (closed (transport s) = true -> closed (transport s') = true) /\
  (state s' = DISCONNECT -> state s <> DISCONNECT ->
   closed (transport s') = true).

(** A method of a session and the store under which the session evolves. *)
Definition evolving (f : Session -> DB -> Session * DB) : Prop :=
  forall s d, evolves s (fst (f s d)).

(** From [w] to [w'] the session evolved and its peers were at most
    written to. *)
Definition progress (w w' : World) : Prop :=
  evolves (self w) (self w') /\
  Forall2 only_sent (before w) (before w') /\
  Forall2 only_sent (after w) (after w').

End Further.

(** ** More sample data *)

Module Cases.

Import Sample.

(** A session that went to READY without authenticating: no uid, no JID. *)
Definition ghost : Session := with_state READY fresh.

(** A controller that has disconnected. *)
Definition gone : Session := with_state DISCONNECT ctl1.

Definition ping_iq (to : string) : Element :=
  mkElement "iq" [("id", "p1"); ("type", "get"); ("to", to)] None
            [mkElement "{urn:xmpp:ping}ping" [] None []].

Definition bind_iq (resource : list Element) : Element :=
  mkElement "iq" [("id", "b1"); ("type", "set")] None
            [mkElement "{urn:ietf:params:xml:ns:xmpp-bind}bind" [] None
               resource].

Definition resource_element (name : option string) : Element :=
  mkElement "{urn:ietf:params:xml:ns:xmpp-bind}resource" [] name [].

Definition presence (type : string) (kids : list Element) : Element :=
  mkElement "presence" [("type", type)] None kids.

Definition status : Element := mkElement "status" [] (Some "hello") [].

(** The roster request of a client. *)
Definition roster_iq : Element :=
  mkElement "iq" [("id", "r1"); ("type", "get")] None
            [mkElement "{jabber:iq:roster}query" [] None []].

Definition roster_chunk : string :=
  "<root><iq id='r1' type='get'><query xmlns='jabber:iq:roster'/></iq></root>".

Definition opening_before : string := "<stream:stream ".

Definition opening_after : string := "' xmlns='jabber:client' version='1.0'>".

End Cases.

(** ** The string functions on examples *)

Example split_slash :
  Py.split "fuid_tmp/res/code" "/" = ["fuid_tmp"; "res"; "code"].
Proof. reflexivity. Qed.

Example split_trailing : Py.split "a@" "@" = ["a"; ""].
Proof. reflexivity. Qed.

Example split_none : Py.split "ecouser.net" "@" = ["ecouser.net"].
Proof. reflexivity. Qed.

Example replace_no_overlap : Py.replace "aaa" "aa" "b" = "ba".
Proof. reflexivity. Qed.

Example replace_prefix_artifact :
  Py.replace (Py.replace "<ns0:query xmlns:ns0='com:ctl'/>"
                         "xmlns:ns0=" "xmlns=") "ns0:" ""
  = "<query xmlns='com:ctl'/>".
Proof. reflexivity. Qed.

Example find_at : Py.find "user42@ecouser.net" "@" = 6.
Proof. reflexivity. Qed.

Example find_missing : Py.find "rl.ecorobot.net" "@" = -1.
Proof. reflexivity. Qed.

Example contains_uid :
  Py.contains (Py.lower "SN123") (Py.lower "sn123@xyz.ecorobot.net") = true.
Proof. reflexivity. Qed.

Example slice_devclass :
  let data := "<stream:stream to='xyz.ecorobot.net' xmlns='jabber:client'>" in
  Py.slice data (Py.find data "to=" + 4) (Py.find data ".ecorobot.net") = "xyz".
Proof. reflexivity. Qed.

Example strip_namespace : _tag_strip_uri "{com:ctl}query" = "query".
Proof. reflexivity. Qed.

(** ** The state never goes back *)

Section Monotone.

Context {E : Externals}.

Lemma getattr_range name v : getattr name = Some v -> 0 <= v <= 5.
Proof.
  unfold getattr.
  repeat match goal with
         | |- context [String.eqb ?a ?b] => destruct (String.eqb a b)
         end;
    intros H; inversion H; subst; cbv; split; congruence.
Qed.

Lemma _disconnect_state s d : state (fst (_disconnect s d)) = state s.
Proof. reflexivity. Qed.

Lemma set_state_grows name : grows (set_state name).
Proof.
  intros s d. unfold set_state.
  destruct (getattr name) as [v|]; simpl; [|lia].
  destruct (state s >? v) eqn:Hgt; simpl; [lia|].
  assert (state s <= v) by lia.
  destruct (v =? 5); simpl; assumption.
Qed.

Lemma set_state_rejects name v s d :
  getattr name = Some v -> v < state s -> set_state name s d = (s, d).
Proof.
  intros Hn Hlt. unfold set_state. rewrite Hn.
  destruct (state s >? v) eqn:Hgt; [reflexivity|lia].
Qed.

Lemma set_state_accepts name v s d :
  getattr name = Some v -> state s <= v ->
  state (fst (set_state name s d)) = v.
Proof.
  intros Hn Hle. unfold set_state. rewrite Hn.
  destruct (state s >? v) eqn:Hgt; [lia|].
  destruct (v =? 5); reflexivity.
Qed.

Lemma _handle_sasl_auth_grows xml : grows (_handle_sasl_auth xml).
Proof.
  intros s d. unfold _handle_sasl_auth.
  destruct (text xml) as [t|]; simpl; [|lia].
  destruct (Py.truthy t); simpl; [|lia].
  destruct (b64decode t) as [decoded|]; simpl; [|lia].
  destruct (sasl_fields decoded) as [[[username resource] authcode]|];
    simpl; [|lia].
  set (s2 := match resource with
             | Some r => with_clientresource r (with_uid username s)
             | None => with_uid username s
             end).
  assert (Hs2 : state s2 = state s) by (subst s2; destruct resource; reflexivity).
  destruct (Py.truthy (devclass s2)).
  - rewrite <- Hs2.
    apply (set_state_grows "INIT" (send sasl_success (with_type BOT s2))).
  - destruct (check_authcode (uid s2) authcode d || negb use_auth); simpl.
    + pose proof (set_state_grows "INIT" (with_type CONTROLLER s2)
                    (client_add (uid (with_type CONTROLLER s2)) "bumper"
                       (clientresource (with_type CONTROLLER s2)) d)) as H.
      destruct (set_state "INIT" _ _) as [s4 d2]. simpl in *. lia.
    + lia.
Qed.

Lemma _handle_bind_grows xml : grows (_handle_bind xml).
Proof.
  intros s d. unfold _handle_bind.
  set (d2 := match client_get _ _ with Some _ => _ | None => _ end).
  assert (Hfin : forall s', state s' = state s ->
            state s <= state (fst (let (s'', d3) := set_state "BIND" s' d2 in
                     (send (bind_result (get xml "id") (bumper_jid s')) s'', d3)))).
  { intros s' Hs'. pose proof (set_state_grows "BIND" s' d2) as H.
    destruct (set_state "BIND" s' d2) as [s'' d3]. simpl in *. lia. }
  destruct (children xml) as [|bind rest]; simpl; [lia|].
  destruct (Py.truthy (devclass s)); [apply Hfin; reflexivity|].
  destruct (children bind) as [|r rs]; [apply Hfin; reflexivity|].
  destruct (text r) as [t|]; simpl; [|lia].
  destruct (Py.truthy t); simpl; [apply Hfin; reflexivity|lia].
Qed.

Lemma _handle_session_grows xml : grows (_handle_session xml).
Proof.
  intros s d. unfold _handle_session.
  pose proof (set_state_grows "READY" s d) as H.
  destruct (set_state "READY" s d) as [s1 d1]. simpl in *. lia.
Qed.

Lemma _handle_presence_grows xml : grows (_handle_presence xml).
Proof.
  intros s d. unfold _handle_presence.
  destruct (match children xml with c :: _ => _ | [] => _ end).
  - destruct (type s =? BOT); simpl; lia.
  - destruct (Py.eq_opt (get xml "type") "available"); simpl; [lia|].
    destruct (Py.eq_opt (get xml "type") "unavailable"); simpl; [|lia].
    apply set_state_grows.
Qed.

Lemma _handle_connect_grows data xml : grows (_handle_connect data xml).
Proof.
  intros s d. unfold _handle_connect.
  destruct (state s =? CONNECT).
  - destruct xml as [x|].
    + destruct (Py.contains _ (tag x)); [apply _handle_sasl_auth_grows|simpl; lia].
    + destruct (Py.find data "jabber:client" >? -1); [|simpl; lia].
      destruct (Py.find data ".ecorobot.net" >? -1);
        match goal with
        | |- context [if ?b then _ else _] => destruct b
        end; simpl; lia.
  - destruct (state s =? INIT); [|simpl; lia].
    destruct xml as [x|].
    + destruct (String.eqb (tag x) "iq"); [|simpl; lia].
      destruct (Py.eq_opt _ "bind"); [apply _handle_bind_grows|simpl; lia].
    + destruct (Py.find data "jabber:client" >? -1); simpl; lia.
Qed.

End Monotone.

Section Advances.

Context {E : Externals}.

Lemma advances_refl w : advances w w.
Proof. unfold advances. repeat split; lia. Qed.

Lemma advances_trans w1 w2 w3 :
  advances w1 w2 -> advances w2 w3 -> advances w1 w3.
Proof.
  unfold advances. intros (Hb1 & Ha1 & Hs1) (Hb2 & Ha2 & Hs2).
  repeat split; try congruence. lia.
Qed.

Lemma map_state_keeps (f : Session -> Session) l :
  (forall s, state (f s) = state s) -> map state (map f l) = map state l.
Proof.
  intros Hf. rewrite map_map. apply map_ext. exact Hf.
Qed.

Lemma on_self_advances f w :
  (forall s, state (f s) = state s) -> advances w (on_self f w).
Proof.
  intros Hf. unfold advances, on_self; simpl. rewrite Hf.
  repeat split; lia.
Qed.

Lemma on_self_db_advances f w : grows f -> advances w (on_self_db f w).
Proof.
  intros Hf. unfold advances, on_self_db.
  specialize (Hf (self w) (db w)).
  destruct (f (self w) (db w)) as [s d]; simpl in *.
  repeat split; assumption.
Qed.

Lemma for_clients_advances f w :
  (forall s, state (f s) = state s) -> advances w (for_clients f w).
Proof.
  intros Hf. unfold advances, for_clients; simpl.
  rewrite !map_state_keeps, Hf by exact Hf. repeat split; lia.
Qed.

Lemma send_where_advances cond msg w : advances w (send_where cond msg w).
Proof.
  apply for_clients_advances. intros s. destruct (cond s); reflexivity.
Qed.

Lemma enroll_advances adminuser to w : advances w (enroll adminuser to w).
Proof. unfold advances, enroll; simpl. repeat split; lia. Qed.

Lemma send_self_advances msg w : advances w (on_self (send msg) w).
Proof. apply on_self_advances. reflexivity. Qed.

Lemma _handle_ctl_advances xml data w : advances w (_handle_ctl xml data w).
Proof.
  unfold _handle_ctl.
  repeat match goal with
         | |- advances _ (if Py.contains ?a ?b then _ else _) =>
             destruct (Py.contains a b); [apply send_self_advances|]
         end.
  match goal with
  | |- context [if ?c then on_self ?f w else w] =>
      set (w1 := if c then on_self f w else w);
      assert (H1 : advances w w1)
        by (subst w1; destruct c;
            [apply send_self_advances|apply advances_refl])
  end.
  destruct (children xml) as [|query rest]; [exact H1|].
  destruct (match children query with _ :: _ => _ | [] => _ end); [exact H1|].
  eapply advances_trans; [exact H1|apply send_where_advances].
Qed.

Lemma _handle_ping_advances xml w : advances w (_handle_ping xml w).
Proof.
  unfold _handle_ping.
  destruct (match get xml "to" with Some _ => _ | None => _ end).
  - apply send_self_advances.
  - apply send_where_advances.
Qed.

Lemma _handle_result_advances xml data w :
  advances w (_handle_result xml data w).
Proof.
  unfold _handle_result.
  destruct (Py.contains "errno='103'" data).
  - repeat match goal with
           | |- advances _ (enroll _ _ _) => apply enroll_advances
           | |- advances ?w ?w => apply advances_refl
           | |- advances _ (if ?b then _ else _) => destruct b
           | |- advances _ (match ?x with _ => _ end) => destruct x
           end.
  - match goal with
    | |- context [if ?c then for_clients ?f w else w] =>
        set (w1 := if c then for_clients f w else w);
        assert (H1 : advances w w1)
          by (subst w1; destruct c;
              [apply for_clients_advances; reflexivity|apply advances_refl])
    end.
    destruct (result_dest _ _); [|exact H1].
    eapply advances_trans; [exact H1|apply send_where_advances].
Qed.

Lemma _handle_iq_advances xml data w : advances w (_handle_iq xml data w).
Proof.
  unfold _handle_iq.
  repeat match goal with
         | |- advances ?w ?w => apply advances_refl
         | |- advances _ (on_self_db (_handle_bind _) _) =>
             apply on_self_db_advances, _handle_bind_grows
         | |- advances _ (on_self_db (_handle_session _) _) =>
             apply on_self_db_advances, _handle_session_grows
         | |- advances _ (_handle_ping _ _) => apply _handle_ping_advances
         | |- advances _ (_handle_result _ _ _) => apply _handle_result_advances
         | |- advances _ (_handle_ctl _ _ _) => apply _handle_ctl_advances
         | |- advances _ (if ?b then _ else _) => destruct b
         end.
Qed.

Lemma fold_handle_advances newdata kids :
  Forall (fun k => forall w, advances w (handle_item newdata k w)) kids ->
  forall w,
    advances w (fold_left (fun acc kid => handle_item newdata kid acc) kids w).
Proof.
  induction 1 as [|k kids Hk _ IH]; intros w; simpl.
  - apply advances_refl.
  - eapply advances_trans; [apply Hk|apply IH].
Qed.

Lemma handle_item_advances newdata item :
  forall w, advances w (handle_item newdata item w).
Proof.
  induction item as [t a x kids IH] using Element_nested_ind.
  intros w. simpl.
  pose proof (fold_handle_advances newdata kids IH) as Hfold.
  destruct (String.eqb t "root"); [apply Hfold|].
  destruct (String.eqb t "iq"); [apply _handle_iq_advances|].
  destruct (Py.contains "auth" t).
  { destruct (Py.contains _ t); [|apply Hfold].
    apply on_self_db_advances, _handle_sasl_auth_grows. }
  destruct (Py.contains "-tls" t).
  { eapply advances_trans; [|apply Hfold].
    destruct (negb _); [|apply advances_refl].
    apply on_self_advances. reflexivity. }
  destruct (Py.contains "presence" t); [|apply Hfold].
  apply on_self_db_advances, _handle_presence_grows.
Qed.

Lemma handle_stream_open_advances newdata w :
  advances w (handle_stream_open newdata w).
Proof.
  unfold handle_stream_open. destruct (_ || _); [|apply advances_refl].
  apply on_self_db_advances, _handle_connect_grows.
Qed.

Lemma parse_data_advances data w : advances w (parse_data data w).
Proof.
  unfold parse_data.
  destruct (fromstring (wrap_root data)) as [root|msg].
  - apply handle_item_advances.
  - repeat match goal with
           | |- advances ?w ?w => apply advances_refl
           | |- advances _ (handle_stream_open _ _) =>
               apply handle_stream_open_advances
           | |- advances _ (on_self (send _) _) => apply send_self_advances
           | |- advances _ (on_self_db _ (on_self _ _)) =>
               eapply advances_trans;
               [apply send_self_advances
               |apply on_self_db_advances, set_state_grows]
           | |- advances _ (if ?b then _ else _) => destruct b
           end.
Qed.

Lemma handle_event_advances e w : advances w (handle_event e w).
Proof.
  destruct e; simpl.
  - apply parse_data_advances.
  - apply on_self_advances. intros s. unfold schedule_ping.
    destruct (negb _); reflexivity.
  - apply on_self_advances. intros s. unfold _handle_starttls.
    destruct (negb _); reflexivity.
  - apply on_self_advances. reflexivity.
Qed.

Lemma run_advances events : forall w, advances w (run events w).
Proof.
  unfold run. induction events as [|e events IH]; intros w; simpl.
  - apply advances_refl.
  - eapply advances_trans; [apply handle_event_advances|apply IH].
Qed.

(** C1 (amended).  Over the life of a session the state index never
    decreases: [connection_made] registers it in CONNECT, no event it
    handles afterwards lowers its state or changes the state of a peer,
    and [connection_lost] does not lower it either.  A transition to a
    numerically lower state is refused: [set_state] leaves the session and
    the store as they were (the session is not disconnected). *)
Theorem state_never_decreases :
  (forall registry,
      exists s,
        connection_made registry = (registry ++ [s])%list /\
        state s = CONNECT /\ state new_client <= state s) /\
  (forall events w, advances w (run events w)) /\
  (forall w, state (self w) <= state (fst (snd (connection_lost w)))) /\
  (forall name v s d,
      getattr name = Some v -> v < state s -> set_state name s d = (s, d)).
Proof.
  split; [|split; [|split]].
  - intros registry. exists (with_state CONNECT new_client).
    repeat split. cbv. congruence.
  - intros events w. apply run_advances.
  - intros w. unfold connection_lost. simpl. apply set_state_grows.
  - intros name v s d. apply set_state_rejects.
Qed.

End Advances.

(** ** Routing *)

Section Routing.

Context {E : Externals}.

Lemma find_from_contains sub s i :
  0 <= i ->
  (Py.find_from sub s i =? -1) = negb (Py.contains sub s).
Proof.
  revert i.
  induction s as [|a s IH]; intros i Hi; cbn [Py.find_from Py.contains].
  - destruct (String.prefix sub ""); cbn [orb negb]; [|reflexivity].
    apply Z.eqb_neq. lia.
  - destruct (String.prefix sub (String a s)); cbn [orb negb].
    + apply Z.eqb_neq. lia.
    + apply IH. lia.
Qed.

Lemma find_contains s sub :
  (Py.find s sub =? -1) = negb (Py.contains sub s).
Proof. apply find_from_contains. lia. Qed.

Lemma contains_at_domain local :
  Py.contains "@" (local ++ "@ecouser.net") = true.
Proof.
  induction local as [|a local IH]; [reflexivity|].
  change (String a local ++ "@ecouser.net")
    with (String a (local ++ "@ecouser.net")).
  cbn [Py.contains]. rewrite IH. apply orb_true_r.
Qed.

Lemma peer_ready_true me c :
  peer_ready me c = true ->
  bumper_jid c <> bumper_jid me /\ state c = READY.
Proof.
  unfold peer_ready. intros H. apply andb_true_iff in H as [Hj Hs].
  split.
  - apply negb_true_iff in Hj. apply String.eqb_neq. exact Hj.
  - apply Z.eqb_eq. exact Hs.
Qed.

Lemma peer_ready_self me : peer_ready me me = false.
Proof. unfold peer_ready. rewrite String.eqb_refl. reflexivity. Qed.

Lemma clients_send_where cond msg w :
  clients (send_where cond msg w) = deliver cond msg (clients w).
Proof.
  unfold clients, send_where, for_clients, deliver; simpl.
  rewrite map_app. reflexivity.
Qed.

Lemma deliver_ext cond cond' msg registry :
  (forall c, cond c = cond' c) ->
  deliver cond msg registry = deliver cond' msg registry.
Proof.
  intros H. unfold deliver. apply map_ext. intros c. rewrite H. reflexivity.
Qed.

Lemma deliver_forwarded me cond msg l :
  (forall c, cond c = true -> peer_ready me c = true) ->
  Forall2 (forwarded_to me) l (deliver cond msg l).
Proof.
  intros Hc. induction l as [|c l IH]; simpl; constructor; [|exact IH].
  destruct (cond c) eqn:Hcc; [|left; reflexivity].
  right. split; [exists msg; reflexivity|].
  apply peer_ready_true, Hc, Hcc.
Qed.

Lemma send_where_forwarded me cond msg w0 w :
  before w = before w0 -> after w = after w0 ->
  (forall c, cond c = true -> peer_ready me c = true) ->
  peers_forwarded me w0 (send_where cond msg w).
Proof.
  intros Hb Ha Hc. unfold peers_forwarded; simpl. rewrite Hb, Ha.
  split; apply deliver_forwarded; exact Hc.
Qed.

Lemma peers_forwarded_same me w0 w :
  before w = before w0 -> after w = after w0 -> peers_forwarded me w0 w.
Proof.
  intros Hb Ha. unfold peers_forwarded. rewrite Hb, Ha.
  assert (Hrefl : forall l, Forall2 (forwarded_to me) l l).
  { induction l; constructor; [left; reflexivity|assumption]. }
  split; apply Hrefl.
Qed.

Lemma send_where_self cond msg w :
  cond (self w) = false -> self (send_where cond msg w) = self w.
Proof. intros H. simpl. rewrite H. reflexivity. Qed.

End Routing.

Section ResultRouting.

Context {E : Externals}.

Lemma dict_get_app_other k k' v d :
  String.eqb k' k = false ->
  dict_get k (d ++ [(k', v)]) = dict_get k d.
Proof.
  intros Hk. induction d as [|[k0 v0] d IH]; simpl.
  - rewrite Hk. reflexivity.
  - destruct (String.eqb k0 k); [reflexivity|exact IH].
Qed.

Lemma get_set_default_from xml jid k :
  String.eqb "from" k = false ->
  get (set_default_from xml jid) k = get xml k.
Proof.
  intros Hk. unfold set_default_from.
  destruct (has_attrib xml "from"); [reflexivity|].
  unfold get; simpl. apply dict_get_app_other. exact Hk.
Qed.

Lemma result_dest_at to :
  Py.contains "@" to = true ->
  result_dest (Some to) (Some to)
  = Some (hd "" (Py.split to "@") ++ "@ecouser.net").
Proof.
  intros Hat. unfold result_dest.
  rewrite find_contains, Hat. cbn [negb andb].
  rewrite andb_false_r.
  assert (Ht : Py.truthy to = true).
  { destruct to; [discriminate Hat|reflexivity]. }
  rewrite Ht. reflexivity.
Qed.

Lemma result_dest_bare to :
  to <> "" -> Py.contains "@" to = false ->
  result_dest (Some to) (Some to) = Some to.
Proof.
  intros Hne Hat. unfold result_dest.
  rewrite find_contains, Hat. cbn [negb].
  assert (Ht : Py.truthy to = true).
  { destruct to; [congruence|reflexivity]. }
  rewrite Ht. reflexivity.
Qed.

Lemma result_dest_none to :
  to = None \/ to = Some "" -> result_dest to to = None.
Proof. intros [->| ->]; reflexivity. Qed.

(** The part of [_handle_result] that forwards. *)
Lemma _handle_result_forward xml data w :
  Py.contains "errno='103'" data = false ->
  (type (self w) =? BOT) && Py.eq_opt (get xml "to") "de.ecorobot.net" = false ->
  _handle_result xml data w
  = match result_dest (get xml "to") (get xml "to") with
    | None => w
    | Some dest =>
        send_where (result_recipient (self w) dest)
          (clean_ctl (tostring (set_default_from xml (bumper_jid (self w))))) w
    end.
Proof.
  intros Herr Hbc. unfold _handle_result.
  rewrite Herr, Hbc, get_set_default_from by reflexivity. reflexivity.
Qed.

(** C2 (amended).  A result that is routed (no [errno='103'] in the chunk,
    not the broadcast of a bot to [de.ecorobot.net]) goes by its [to]:
    when [to] has an [@], the destination is the part of [to] before its
    first [@], at [ecouser.net], and the stanza is sent, once each, to
    exactly the READY sessions under another JID than the originator's whose
    lowercased uid occurs in the lowercased destination - to nobody when no
    session matches; when [to] is not empty and has no [@], it is not
    normalized, and the stanza is sent to every READY session under another
    JID than the originator's; when [to] is missing or empty nothing is
    sent. *)
Theorem result_routing xml data w :
  Py.contains "errno='103'" data = false ->
  (type (self w) =? BOT) && Py.eq_opt (get xml "to") "de.ecorobot.net" = false ->
  let me := self w in
  let F := clean_ctl (tostring (set_default_from xml (bumper_jid me))) in
  let w' := _handle_result xml data w in
  (forall to,
      get xml "to" = Some to -> Py.contains "@" to = true ->
      let dest := hd "" (Py.split to "@") ++ "@ecouser.net" in
      let matches c := peer_ready me c && uid_in c dest in
      clients w' = deliver matches F (clients w) /\
      ((forall c, In c (clients w) -> matches c = false) ->
       clients w' = clients w)) /\
  (forall to,
      get xml "to" = Some to -> to <> "" -> Py.contains "@" to = false ->
      clients w' = deliver (peer_ready me) F (clients w)) /\
  (get xml "to" = None \/ get xml "to" = Some "" -> w' = w).
Proof.
  intros Herr Hbc me F w'.
  assert (Hw' : w' = _handle_result xml data w) by reflexivity.
  rewrite (_handle_result_forward xml data w Herr Hbc) in Hw'.
  split; [|split].
  - intros to Hto Hat dest matches.
    rewrite Hto, (result_dest_at to Hat) in Hw'.
    assert (Hd : clients w' = deliver matches F (clients w)).
    { rewrite Hw', clients_send_where. apply deliver_ext. intros c.
      unfold result_recipient, matches, dest.
      rewrite contains_at_domain. reflexivity. }
    split; [exact Hd|].
    intros Hnone. rewrite Hd. unfold deliver.
    rewrite <- (map_id (clients w)) at 2. apply map_ext_in.
    intros c Hc. rewrite (Hnone c Hc). reflexivity.
  - intros to Hto Hne Hat.
    rewrite Hto, (result_dest_bare to Hne Hat) in Hw'.
    rewrite Hw', clients_send_where. apply deliver_ext. intros c.
    unfold result_recipient. rewrite Hat. cbn [negb orb].
    apply andb_true_r.
  - intros Hno. rewrite Hw', (result_dest_none _ Hno). reflexivity.
Qed.

End ResultRouting.

Section Recipients.

Context {E : Externals}.

Lemma ctl_recipient_ready me to c :
  ctl_recipient me to c = true -> peer_ready me c = true.
Proof.
  unfold ctl_recipient. intros H.
  apply andb_true_iff in H as [H _]. apply andb_true_iff in H as [H _].
  exact H.
Qed.

Lemma ping_recipient_ready me to c :
  ping_recipient me to c = true -> peer_ready me c = true.
Proof.
  unfold ping_recipient. intros H.
  apply andb_true_iff in H as [H _]. apply andb_true_iff in H as [H _].
  exact H.
Qed.

Lemma result_recipient_ready me dest c :
  result_recipient me dest c = true -> peer_ready me c = true.
Proof.
  unfold result_recipient. intros H.
  apply andb_true_iff in H as [H _]. exact H.
Qed.

Lemma not_recipient_self cond (me : Session) :
  (forall c, cond c = true -> peer_ready me c = true) -> cond me = false.
Proof.
  intros H. destruct (cond me) eqn:Hc; [|reflexivity].
  apply H in Hc. rewrite peer_ready_self in Hc. discriminate.
Qed.

Lemma _handle_ctl_recipients xml data w :
  let me := self w in
  let w' := _handle_ctl xml data w in
  peers_forwarded me w w' /\
  (self w' = me \/
   self w' = send (not_implemented (get xml "id")) me \/
   self w' = send (rl_ack xml me) me).
Proof.
  intros me w'. subst w'. unfold _handle_ctl. fold me.
  repeat match goal with
         | |- context [if Py.contains ?a data then _ else _] =>
             destruct (Py.contains a data);
             [split; [apply peers_forwarded_same; reflexivity
                     |right; left; reflexivity]|]
         end.
  match goal with
  | |- context [if ?c then on_self ?f w else w] =>
      set (w1 := if c then on_self f w else w);
      assert (Hb : before w1 = before w) by (subst w1; destruct c; reflexivity);
      assert (Ha : after w1 = after w) by (subst w1; destruct c; reflexivity);
      assert (Hs : self w1 = me \/ self w1 = send (rl_ack xml me) me)
        by (subst w1; destruct c; [right|left]; reflexivity)
  end.
  assert (Hw1 : peers_forwarded me w w1 /\
                (self w1 = me \/
                 self w1 = send (not_implemented (get xml "id")) me \/
                 self w1 = send (rl_ack xml me) me)).
  { split; [apply peers_forwarded_same; assumption|].
    destruct Hs as [Hs|Hs]; [left|right; right]; exact Hs. }
  destruct (children xml) as [|query rest]; [exact Hw1|].
  destruct (match children query with _ :: _ => _ | [] => _ end); [exact Hw1|].
  split.
  - apply send_where_forwarded; try assumption.
    intros c. apply ctl_recipient_ready.
  - assert (Hself : forall s, bumper_jid s = bumper_jid me ->
              ctl_recipient me (get xml "to") s = false).
    { intros s Hj. unfold ctl_recipient, peer_ready.
      rewrite Hj, String.eqb_refl. reflexivity. }
    cbn [self send_where for_clients].
    rewrite Hself; [exact (proj2 Hw1)|].
    destruct Hs as [-> | ->]; reflexivity.
Qed.

Lemma _handle_ping_recipients xml w :
  let me := self w in
  let w' := _handle_ping xml w in
  peers_forwarded me w w' /\
  (self w' = me \/ self w' = send (ping_result xml) me).
Proof.
  intros me w'. subst w'. unfold _handle_ping. fold me.
  destruct (match get xml "to" with Some _ => _ | None => _ end).
  - split; [apply peers_forwarded_same; reflexivity|right; reflexivity].
  - split.
    + apply send_where_forwarded; try reflexivity.
      intros c. apply ping_recipient_ready.
    + left. apply send_where_self, not_recipient_self.
      intros c. apply ping_recipient_ready.
Qed.

Lemma _handle_result_recipients xml data w :
  (type (self w) =? BOT) && Py.eq_opt (get xml "to") "de.ecorobot.net" = false ->
  let me := self w in
  let w' := _handle_result xml data w in
  peers_forwarded me w w' /\
  (Py.contains "errno='103'" data = false -> self w' = me).
Proof.
  intros Hbc me w'. subst w'.
  destruct (Py.contains "errno='103'" data) eqn:Herr.
  - split; [|discriminate].
    unfold _handle_result. rewrite Herr.
    repeat match goal with
           | |- peers_forwarded _ _ (enroll _ _ _) =>
               apply peers_forwarded_same; reflexivity
           | |- peers_forwarded _ ?w ?w =>
               apply peers_forwarded_same; reflexivity
           | |- peers_forwarded _ _ (if ?b then _ else _) => destruct b
           | |- peers_forwarded _ _ (match ?x with _ => _ end) => destruct x
           end.
  - rewrite (_handle_result_forward xml data w Herr Hbc).
    destruct (result_dest _ _) as [dest|].
    + split.
      * apply send_where_forwarded; try reflexivity.
        intros c. apply result_recipient_ready.
      * intros _. apply send_where_self, not_recipient_self.
        intros c. apply result_recipient_ready.
    + split; [apply peers_forwarded_same; reflexivity|reflexivity].
Qed.

Lemma _handle_result_broadcast xml data w :
  Py.contains "errno='103'" data = false ->
  type (self w) = BOT ->
  get xml "to" = Some "de.ecorobot.net" ->
  let F := clean_ctl (tostring (set_default_from xml (bumper_jid (self w)))) in
  Forall2 (fun c c' => exists rest, sent c' = (sent c ++ F :: rest)%list)
          (clients w) (clients (_handle_result xml data w)).
Proof.
  intros Herr Hbot Hto F. unfold _handle_result.
  rewrite Herr, Hbot, Hto, get_set_default_from, Hto by reflexivity.
  cbn [Z.eqb Pos.eqb BOT Py.eq_opt String.eqb Ascii.eqb Bool.eqb andb].
  change (result_dest (Some "de.ecorobot.net") (Some "de.ecorobot.net"))
    with (Some "de.ecorobot.net").
  cbv iota. fold F.
  rewrite clients_send_where.
  replace (clients (for_clients (send F) w)) with (map (send F) (clients w))
    by (unfold clients, for_clients; simpl; rewrite map_app; reflexivity).
  unfold deliver. rewrite map_map.
  induction (clients w) as [|c l IH]; simpl; constructor; [|exact IH].
  destruct (result_recipient _ _ _).
  - exists [F]. unfold sent, send; simpl. rewrite <- app_assoc. reflexivity.
  - exists []. reflexivity.
Qed.

(** C3 (amended).  A stanza forwarded by the control, ping and result
    handlers - the broadcast of a bot to [de.ecorobot.net] apart - reaches
    only sessions that are READY and under another JID than the
    originator's; the originator itself is sent nothing but the direct
    answers of the server (the 501 error, the [rl.ecorobot.net]
    acknowledgement, the ping result), and nothing at all by the result
    handler outside the enrollment on [errno='103'].  The broadcast goes to
    every session of the registry, whatever its state, the originator
    included. *)
Theorem forwarded_only_to_ready_peers xml data w :
  let me := self w in
  (peers_forwarded me w (_handle_ctl xml data w) /\
   (self (_handle_ctl xml data w) = me \/
    self (_handle_ctl xml data w) = send (not_implemented (get xml "id")) me \/
    self (_handle_ctl xml data w) = send (rl_ack xml me) me)) /\
  (peers_forwarded me w (_handle_ping xml w) /\
   (self (_handle_ping xml w) = me \/
    self (_handle_ping xml w) = send (ping_result xml) me)) /\
  ((type me =? BOT) && Py.eq_opt (get xml "to") "de.ecorobot.net" = false ->
   peers_forwarded me w (_handle_result xml data w) /\
   (Py.contains "errno='103'" data = false ->
    self (_handle_result xml data w) = me)) /\
  (Py.contains "errno='103'" data = false ->
   type me = BOT -> get xml "to" = Some "de.ecorobot.net" ->
   Forall2 (fun c c' =>
              exists rest,
                sent c' = (sent c
                  ++ clean_ctl (tostring (set_default_from xml (bumper_jid me)))
                  :: rest)%list)
           (clients w) (clients (_handle_result xml data w))).
Proof.
  intros me. split; [|split; [|split]].
  - apply _handle_ctl_recipients.
  - apply _handle_ping_recipients.
  - apply _handle_result_recipients.
  - apply _handle_result_broadcast.
Qed.

End Recipients.

(** ** SASL PLAIN *)

Section Sasl.

Context {E : Externals}.

(** The authcid of a decoded payload: the second NUL-delimited field of
    its first slash-delimited field. *)
Lemma sasl_fields_authcid decoded username :
  nth_error (Py.split (hd "" (Py.split decoded "/")) Py.NUL) 1 = Some username ->
  exists resource,
    sasl_fields decoded
    = Some (username, resource, nth 2 (Py.split decoded "/") "").
Proof.
  intros Hu. unfold sasl_fields. rewrite Hu.
  eexists. do 2 f_equal.
  destruct (Py.split decoded "/") as [|a [|b [|c l]]]; reflexivity.
Qed.

(** The resource of a decoded payload: its second slash-delimited field,
    else the third NUL-delimited field of the first. *)
Lemma sasl_fields_resource decoded username :
  nth_error (Py.split (hd "" (Py.split decoded "/")) Py.NUL) 1 = Some username ->
  sasl_fields decoded
  = Some (username,
          match nth_error (Py.split decoded "/") 1 with
          | Some r => Some r
          | None => nth_error (Py.split (hd "" (Py.split decoded "/")) Py.NUL) 2
          end,
          nth 2 (Py.split decoded "/") "").
Proof.
  intros Hu. unfold sasl_fields. rewrite Hu. do 2 f_equal.
  destruct (Py.split decoded "/") as [|a [|b [|c l]]]; reflexivity.
Qed.

Lemma contains_char c a s :
  Py.contains (String c "") (String a s)
  = Ascii.eqb c a || Py.contains (String c "") s.
Proof.
  cbn [Py.contains String.prefix].
  destruct (ascii_dec c a) as [->|Hne].
  - rewrite Ascii.eqb_refl. destruct s; reflexivity.
  - apply Ascii.eqb_neq in Hne. rewrite Hne. reflexivity.
Qed.

Lemma split_without c s :
  Py.contains (String c "") s = false -> Py.split s c = [s].
Proof.
  induction s as [|a s IH]; intros H; [reflexivity|].
  rewrite contains_char in H. apply orb_false_iff in H as [Hc Hs].
  cbn [Py.split]. rewrite Ascii.eqb_sym, Hc, (IH Hs). reflexivity.
Qed.

Lemma first_field_without c sep s :
  Py.contains (String c "") s = false ->
  Py.contains (String c "") (hd "" (Py.split s sep)) = false.
Proof.
  induction s as [|a s IH]; intros H; [reflexivity|].
  rewrite contains_char in H. apply orb_false_iff in H as [Hc Hs].
  cbn [Py.split]. destruct (Ascii.eqb a sep); [reflexivity|].
  specialize (IH Hs).
  destruct (Py.split s sep) as [|h t]; cbn [hd] in *.
  - rewrite contains_char, Hc. reflexivity.
  - rewrite contains_char, Hc, IH. reflexivity.
Qed.

Lemma sasl_fields_without_nul decoded :
  Py.contains (String Py.NUL "") decoded = false -> sasl_fields decoded = None.
Proof.
  intros H. unfold sasl_fields.
  rewrite (split_without _ _ (first_field_without _ "/" _ H)). reflexivity.
Qed.

Lemma truthy_nonempty s : s <> "" -> Py.truthy s = true.
Proof. destruct s; [congruence|reflexivity]. Qed.

Lemma success_is_not_response l :
  (l ++ [sasl_response])%list <> (l ++ [sasl_success])%list.
Proof.
  intros H. apply app_inv_head in H. discriminate H.
Qed.

(** C4 (amended).  A session with a device class, in whatever state, that
    submits a decodable PLAIN payload - base64 and UTF-8 decode, and the
    first slash-delimited field names an authcid after a NUL - is
    authenticated whatever the authcode, the credentials store and
    [use_auth] say: the bot is registered with [bot_add], [<success/>] is
    sent, the kind is BOT and the uid the authcid.  The state becomes INIT
    when the session has not passed INIT; a session that is past INIT keeps
    its state. *)
Theorem bot_auth_unconditional xml payload decoded username s d :
  text xml = Some payload -> payload <> "" ->
  b64decode payload = Some decoded ->
  nth_error (Py.split (hd "" (Py.split decoded "/")) Py.NUL) 1 = Some username ->
  devclass s <> "" ->
  let s' := fst (_handle_sasl_auth xml s d) in
  let d' := snd (_handle_sasl_auth xml s d) in
  d' = bot_add username username (devclass s) "atom" "eco-legacy" d /\
  sent s' = (sent s ++ [sasl_success])%list /\
  type s' = BOT /\
  uid s' = username /\
  (state s <= INIT -> state s' = INIT) /\
  (INIT < state s -> state s' = state s).
Proof.
  intros Htext Hne Hdec Hu Hdev.
  destruct (sasl_fields_authcid decoded username Hu) as [resource Hf].
  unfold _handle_sasl_auth. rewrite Htext.
  pose proof (truthy_nonempty payload Hne) as Ht.
  rewrite Ht, Hdec, Hf. cbn [negb].
  set (s2 := match resource with
             | Some r => with_clientresource r (with_uid username s)
             | None => with_uid username s
             end).
  assert (Hs2 : devclass s2 = devclass s /\ uid s2 = username /\
                state s2 = state s /\ sent s2 = sent s)
    by (subst s2; destruct resource; repeat split; reflexivity).
  destruct Hs2 as (Hd2 & Hu2 & Hst2 & Hsent2).
  assert (Hdt : Py.truthy (devclass s2) = true)
    by (rewrite Hd2; apply truthy_nonempty, Hdev).
  rewrite Hdt, Hu2, Hd2.
  unfold set_state. cbn [getattr String.eqb Ascii.eqb Bool.eqb].
  cbn [state send with_transport with_type].
  rewrite Hst2.
  destruct (state s >? INIT) eqn:Hgt;
    cbn; unfold sent in *; rewrite ?Hsent2, ?Hu2, ?Hst2;
    (repeat split; try reflexivity; intros; lia).
Qed.

(** C5 (amended).  A session without device class that submits a decodable
    PLAIN payload takes the authcid - the second NUL-delimited field of the
    first slash-delimited field - as uid.  The authcode is the third
    slash-delimited field of the payload, the empty string when the payload
    has fewer than three: it is empty in the form NUL authcid NUL password
    and in the form NUL authcid NUL resource NUL password.  The resource
    recorded is the second slash-delimited field when there is one, else the
    third NUL-delimited field of the first slash-delimited field when there
    is one (the password in the form NUL authcid NUL password, the middle
    field in the form NUL authcid NUL resource NUL password, whose trailing
    field is dropped), else the resource the session had.  [<success/>] is
    sent if and only if [check_authcode(uid, authcode)] holds or [use_auth]
    is false; then the kind is CONTROLLER, the client is added to the store,
    a session that has not passed INIT is in INIT and a session past INIT
    keeps its state.  Otherwise an empty [<response/>] is sent and kind,
    state and store are as before. *)
Theorem controller_auth xml payload decoded username s d :
  text xml = Some payload -> payload <> "" ->
  b64decode payload = Some decoded ->
  nth_error (Py.split (hd "" (Py.split decoded "/")) Py.NUL) 1 = Some username ->
  devclass s = "" ->
  let authcode := nth 2 (Py.split decoded "/") "" in
  let ok := check_authcode username authcode d || negb use_auth in
  let s' := fst (_handle_sasl_auth xml s d) in
  let d' := snd (_handle_sasl_auth xml s d) in
  uid s' = username /\
  clientresource s'
  = match nth_error (Py.split decoded "/") 1 with
    | Some r => r
    | None =>
        match nth_error (Py.split (hd "" (Py.split decoded "/")) Py.NUL) 2 with
        | Some r => r
        | None => clientresource s
        end
    end /\
  (sent s' = (sent s ++ [sasl_success])%list <-> ok = true) /\
  (ok = true ->
   type s' = CONTROLLER /\
   d' = client_add username "bumper" (clientresource s') d /\
   (state s <= INIT -> state s' = INIT) /\
   (INIT < state s -> state s' = state s)) /\
  (ok = false ->
   sent s' = (sent s ++ [sasl_response])%list /\
   type s' = type s /\ state s' = state s /\ d' = d).
Proof.
  intros Htext Hne Hdec Hu Hdev authcode ok.
  pose proof (sasl_fields_resource decoded username Hu) as Hf.
  unfold _handle_sasl_auth. rewrite Htext.
  pose proof (truthy_nonempty payload Hne) as Ht.
  rewrite Ht, Hdec, Hf. cbn [negb]. fold authcode.
  set (resource := match nth_error (Py.split decoded "/") 1 with
                   | Some r => Some r
                   | None =>
                       nth_error (Py.split (hd "" (Py.split decoded "/")) Py.NUL) 2
                   end).
  set (s2 := match resource with
             | Some r => with_clientresource r (with_uid username s)
             | None => with_uid username s
             end).
  assert (Hs2 : devclass s2 = devclass s /\ uid s2 = username /\
                state s2 = state s /\ sent s2 = sent s /\ type s2 = type s)
    by (subst s2; destruct resource; repeat split; reflexivity).
  destruct Hs2 as (Hd2 & Hu2 & Hst2 & Hsent2 & Hty2).
  assert (Hres : clientresource s2
                 = match nth_error (Py.split decoded "/") 1 with
                   | Some r => r
                   | None =>
                       match nth_error
                               (Py.split (hd "" (Py.split decoded "/")) Py.NUL) 2
                       with
                       | Some r => r
                       | None => clientresource s
                       end
                   end).
  { subst s2 resource.
    destruct (nth_error (Py.split decoded "/") 1); [reflexivity|].
    destruct (nth_error (Py.split (hd "" (Py.split decoded "/")) Py.NUL) 2);
      reflexivity. }
  rewrite <- Hres.
  rewrite Hd2, Hdev. cbn [Py.truthy String.eqb negb].
  rewrite Hu2. fold ok.
  destruct ok eqn:Hok.
  - pose proof (set_state_accepts "INIT" INIT (with_type CONTROLLER s2)
                  (client_add (uid (with_type CONTROLLER s2)) "bumper"
                     (clientresource (with_type CONTROLLER s2)) d)
                  eq_refl) as Hacc.
    unfold set_state in *. cbn [getattr String.eqb Ascii.eqb Bool.eqb] in *.
    cbn [state with_type] in *.
    destruct (state s2 >? INIT) eqn:Hgt; cbn in *;
      unfold sent in *; rewrite ?Hsent2, ?Hu2, ?Hst2;
      (repeat split; try reflexivity; try congruence; try lia).
  - cbn. unfold sent in *. rewrite Hsent2, Hu2, Hty2, Hst2.
    repeat split; try reflexivity; try congruence.
    intros H. exfalso. exact (success_is_not_response _ H).
Qed.

(** C6 (amended).  A PLAIN payload whose decoded text has no NUL is not
    answered: the handler stops on the missing field before it sends or
    changes anything, so no [<response/>] goes out and the session, a
    session in CONNECT included, and the store stay as they were. *)
Theorem auth_without_separator xml payload decoded s d :
  text xml = Some payload ->
  b64decode payload = Some decoded ->
  Py.contains (String Py.NUL "") decoded = false ->
  _handle_sasl_auth xml s d = (s, d).
Proof.
  intros Htext Hdec Hnul. unfold _handle_sasl_auth.
  rewrite Htext. destruct (Py.truthy payload); [|reflexivity].
  cbn [negb]. rewrite Hdec, (sasl_fields_without_nul decoded Hnul).
  reflexivity.
Qed.

End Sasl.

(** ** Closing the stream *)

Section StreamClose.

Context {E : Externals}.

Lemma set_state_disconnect s d :
  state s <= DISCONNECT ->
  set_state "DISCONNECT" s d = _disconnect (with_state DISCONNECT s) d.
Proof.
  intros Hle. unfold set_state.
  change (getattr "DISCONNECT") with (Some DISCONNECT). cbv iota.
  destruct (state s >? DISCONNECT) eqn:Hgt; [lia|reflexivity].
Qed.

(** C7.  A chunk that is a lone [</stream:stream>] does not parse under
    the artificial root; expat reports the closing tag as mismatched, an
    error that is neither "no element found" nor "not well-formed (invalid
    token)".  Whatever the state of the session (IDLE to DISCONNECT), the
    server then answers [</stream:stream>] and the session goes to
    DISCONNECT, which closes its transport; its peers are untouched. *)
Theorem lone_stream_close w msg :
  fromstring "<root></stream:stream></root>" = ParseError msg ->
  Py.contains "no element found" msg = false ->
  Py.contains "not well-formed (invalid token)" msg = false ->
  state (self w) <= DISCONNECT ->
  let w' := parse_data "</stream:stream>" w in
  sent (self w') = (sent (self w) ++ ["</stream:stream>"])%list /\
  state (self w') = DISCONNECT /\
  closed (transport (self w')) = true /\
  before w' = before w /\ after w' = after w.
Proof.
  intros Hparse Hm1 Hm2 Hst w'. subst w'. unfold parse_data.
  change (wrap_root "</stream:stream>") with "<root></stream:stream></root>".
  rewrite Hparse, Hm1, Hm2.
  replace (Py.contains "<stream:stream" "<root></stream:stream></root>")
    with false by reflexivity.
  replace (Py.contains "</stream:stream>" "<root></stream:stream></root>")
    with true by reflexivity.
  cbn [negb]. unfold on_self_db, on_self. cbn [self db before after uuids_drawn].
  rewrite set_state_disconnect by exact Hst.
  unfold _disconnect. cbn. repeat split; reflexivity.
Qed.

End StreamClose.

(** ** Enrollment on [errno='103'] *)

Section Enrollment.

Context {E : Externals}.

(** C8 (amended).  When the chunk of a bot's answer holds [errno='103'],
    the stanza has a non-empty [to], and its control element names an admin
    user - its [error] attribute without the words "permission denied,
    please contact " and without spaces, else its [admin] attribute - the
    server sends on the bot's own connection, in this order, AddUser, SetAC
    (userman, setting, clean) and GetUserInfo, each with a [uuid4()] of its
    own as id, to the bot's JID, from the admin user; the user added is
    [to] up to its first slash.  The enrollment is skipped, and nothing is
    sent, when the admin user (not the new user) starts with [fuid_] or
    [fusername_], or when [use_auth] is on.  Nothing is forwarded to peers
    either way. *)
Theorem enrollment_on_permission_denied xml data w query rest ctl rest' to adminuser :
  Py.contains "errno='103'" data = true ->
  type (self w) = BOT ->
  children xml = query :: rest ->
  children query = ctl :: rest' ->
  get xml "to" = Some to -> to <> "" ->
  adminuser_of ctl = Some adminuser ->
  let me := self w in
  let n := uuids_drawn w in
  let newuser := hd "" (Py.split to "/") in
  let skipped :=
    Py.startswith adminuser "fuid_" || Py.startswith adminuser "fusername_"
    || use_auth in
  let w' := _handle_result xml data w in
  (forall err, get ctl "error" = Some err ->
      adminuser
      = Py.replace (Py.replace err "permission denied, please contact " "")
                   " " "") /\
  (get ctl "error" = None -> get ctl "admin" = Some adminuser) /\
  (skipped = false ->
   sent (self w')
   = (sent me ++ [adduser (uuid4 n) adminuser (bumper_jid me) newuser;
                  adduseracs (uuid4 (S n)) adminuser (bumper_jid me) newuser;
                  getuserinfo (uuid4 (S (S n))) adminuser (bumper_jid me)])%list
   /\ uuids_drawn w' = S (S (S n))
   /\ before w' = before w /\ after w' = after w) /\
  (skipped = true -> w' = w).
Proof.
  intros Herr Hbot Hx Hq Hto Hne Hadm me n newuser skipped w'.
  split; [|split].
  - intros err He. unfold adminuser_of in Hadm. rewrite He in Hadm.
    congruence.
  - intros He. unfold adminuser_of in Hadm. rewrite He in Hadm. exact Hadm.
  - assert (Hw' : w' = if negb skipped then enroll adminuser to w else w).
    { subst w'. unfold _handle_result.
      rewrite Herr, Hbot, Hto. change (BOT =? BOT) with true. cbv iota.
      assert (Hc : children (set_default_from xml (bumper_jid (self w)))
                   = children xml).
      { unfold set_default_from. destruct (has_attrib xml "from"); reflexivity. }
      rewrite Hc, Hx, Hq, (truthy_nonempty to Hne), Hadm. reflexivity. }
    split; intros Hs; rewrite Hw', Hs; cbn [negb]; [|reflexivity].
    unfold enroll, sent, send; cbn. fold me n newuser.
    rewrite <- !app_assoc. repeat split; reflexivity.
Qed.

End Enrollment.

(** ** Dispatch of iq stanzas *)

Section Dispatch.

Context {E : Externals}.

Lemma _handle_session_ready xml s d :
  state s <= READY ->
  _handle_session xml s d
  = (spawn (schedule_ping_task 30)
       (send ("<iq type=" ++ Py.q "result" ++ " id="
              ++ Py.q (Py.str (get xml "id")) ++ " />")
             (with_state READY s)), d).
Proof.
  intros Hle. unfold _handle_session, set_state.
  change (getattr "READY") with (Some READY). cbv iota.
  destruct (state s >? READY) eqn:Hgt; [lia|reflexivity].
Qed.

Lemma eq_opt_other (o : option string) s :
  o <> Some s -> Py.eq_opt o s = false.
Proof.
  intros H. destruct o as [t|]; [|reflexivity].
  apply String.eqb_neq. intros ->. apply H. reflexivity.
Qed.

(** C10 (amended).  [_handle_iq] chooses the handler by the tag of the
    first child - bind, session, ping, query - and, for any other child or
    none, by the [type] attribute - result or set go to the result handler,
    anything else is ignored; for a query the kind of the session tells a
    bot's query, handled as a result, from a control query.  Nothing else
    is consulted: not the state of the session, nor whether it
    authenticated, and [parse_data] hands [_handle_iq] every [iq] it meets.
    So a session fresh in CONNECT, of unknown kind and without uid, that
    receives [<iq id="x" type="set"><session/></iq>] goes straight to READY,
    over INIT and BIND, and is sent [<iq type="result" id="x" />]: no SASL
    exchange took place, kind and uid stay as they were. *)
Theorem iq_dispatch_ignores_state :
  (forall xml data w,
      tag xml = "iq" -> first_child_tag xml = Some "bind" ->
      _handle_iq xml data w = on_self_db (_handle_bind xml) w) /\
  (forall xml data w,
      tag xml = "iq" -> first_child_tag xml = Some "session" ->
      _handle_iq xml data w = on_self_db (_handle_session xml) w) /\
  (forall xml data w,
      tag xml = "iq" -> first_child_tag xml = Some "ping" ->
      _handle_iq xml data w = _handle_ping xml w) /\
  (forall xml data w,
      tag xml = "iq" -> first_child_tag xml = Some "query" ->
      _handle_iq xml data w
      = if type (self w) =? BOT then _handle_result xml data w
        else _handle_ctl xml data w) /\
  (forall xml data w,
      tag xml = "iq" ->
      first_child_tag xml <> Some "bind" ->
      first_child_tag xml <> Some "session" ->
      first_child_tag xml <> Some "ping" ->
      first_child_tag xml <> Some "query" ->
      (get xml "type" = Some "result" \/ get xml "type" = Some "set" ->
       _handle_iq xml data w = _handle_result xml data w) /\
      (get xml "type" <> Some "result" -> get xml "type" <> Some "set" ->
       _handle_iq xml data w = w)) /\
  (forall xml data w, tag xml <> "iq" -> _handle_iq xml data w = w) /\
  (forall newdata a x kids w,
      handle_item newdata (mkElement "iq" a x kids) w
      = _handle_iq (mkElement "iq" a x kids) newdata w) /\
  (forall w,
      fromstring ("<root><iq id=" ++ Py.q "x" ++ " type=" ++ Py.q "set"
                  ++ "><session/></iq></root>")
      = Parsed (mkElement "root" [] None
                  [mkElement "iq" [("id", "x"); ("type", "set")] None
                     [mkElement "session" [] None []]]) ->
      state (self w) = CONNECT -> type (self w) = UNKNOWN ->
      uid (self w) = "" ->
      let w' := parse_data ("<iq id=" ++ Py.q "x" ++ " type=" ++ Py.q "set"
                            ++ "><session/></iq>") w in
      state (self w') = READY /\
      sent (self w')
      = (sent (self w)
         ++ [("<iq type=" ++ Py.q "result" ++ " id=" ++ Py.q "x"
              ++ " />")%string])%list /\
      type (self w') = UNKNOWN /\ uid (self w') = "" /\
      before w' = before w /\ after w' = after w).
Proof.
  split; [|split; [|split; [|split; [|split; [|split; [|split]]]]]].
  - intros xml data w Ht Hc. unfold _handle_iq. rewrite Ht, Hc. reflexivity.
  - intros xml data w Ht Hc. unfold _handle_iq. rewrite Ht, Hc. reflexivity.
  - intros xml data w Ht Hc. unfold _handle_iq. rewrite Ht, Hc. reflexivity.
  - intros xml data w Ht Hc. unfold _handle_iq. rewrite Ht, Hc. reflexivity.
  - intros xml data w Ht Hb Hs Hp Hq. unfold _handle_iq.
    rewrite Ht, (eq_opt_other _ _ Hb), (eq_opt_other _ _ Hs),
      (eq_opt_other _ _ Hp), (eq_opt_other _ _ Hq).
    cbn [String.eqb Ascii.eqb Bool.eqb]. split.
    + intros [Hty|Hty]; rewrite Hty; reflexivity.
    + intros Hr Hset.
      rewrite (eq_opt_other _ _ Hr), (eq_opt_other _ _ Hset). reflexivity.
  - intros xml data w Ht. unfold _handle_iq.
    apply String.eqb_neq in Ht. rewrite Ht. reflexivity.
  - reflexivity.
  - intros w Hparse Hst Hty Hu w'. subst w'. unfold parse_data.
    match goal with
    | H : fromstring ?s = _ |- context [fromstring ?t] =>
        change t with s; rewrite H
    end.
    cbn [handle_item String.eqb Ascii.eqb Bool.eqb fold_left].
    unfold _handle_iq, on_self_db.
    cbn [tag first_child_tag children _tag_strip_uri String.eqb Ascii.eqb
         Bool.eqb Py.eq_opt].
    rewrite _handle_session_ready by (rewrite Hst; cbv; congruence).
    cbn. rewrite <- Hty, <- Hu. repeat split; reflexivity.
Qed.

End Dispatch.

(** ** The handlers at work on the sample environment *)

Import Sample.

(** C1, an instance: a READY session asked back to INIT stays as it is. *)
Lemma state_never_decreases_witness :
  @set_state (env true) "INIT" ctl1 [] = (ctl1, []).
Proof.
  apply (proj2 (proj2 (proj2 (@state_never_decreases (env true))))
           "INIT" INIT ctl1 []); reflexivity.
Defined.

(** C1 as stated fails: the transition of a READY session to INIT is an
    attempt to go back, and the session is not in DISCONNECT after it, nor
    is its transport closed. *)
Lemma backwards_transition_does_not_disconnect :
  @getattr "INIT" = Some INIT /\
  INIT < state ctl1 /\
  state (fst (@set_state (env true) "INIT" ctl1 [])) <> DISCONNECT /\
  closed (transport (fst (@set_state (env true) "INIT" ctl1 []))) = false.
Proof.
  repeat split; try reflexivity. cbv. congruence.
Qed.

(** C2, an instance: the answer of a bot to [user42@ecouser.net/mobile]
    reaches the session of user42 and not that of user77. *)
Lemma result_routing_witness :
  let x := iq_result "user42@ecouser.net/mobile" in
  let w := world false [ctl2] bot1 [ctl1] in
  clients (_handle_result x (chunk_of x) w)
  = [ctl2; bot1;
     send (clean_ctl (print_element (set_default_from x (bumper_jid bot1))))
          ctl1].
Proof.
  intros x w.
  destruct (@result_routing (env false) x (chunk_of x) w eq_refl eq_refl)
    as [Hat _].
  destruct (Hat "user42@ecouser.net/mobile" eq_refl eq_refl) as [H _].
  rewrite H. reflexivity.
Defined.

(** C2 as stated fails: a result addressed to [ecouser.net] has no [@] in
    its [to]; normalized as the claim says, the destination
    [ecouser.net@ecouser.net] holds the uid of no session, yet the stanza
    is delivered to the ready controller. *)
Lemma result_without_at_reaches_every_ready_peer :
  let x := iq_result "ecouser.net" in
  let w := world false [] bot1 [ctl1] in
  let F := clean_ctl (print_element (set_default_from x (bumper_jid bot1))) in
  let claimed c :=
    peer_ready bot1 c && uid_in c ("ecouser.net" ++ "@ecouser.net") in
  get x "to" = Some "ecouser.net" /\
  Py.contains "@" "ecouser.net" = false /\
  claimed ctl1 = false /\
  deliver claimed F (clients w) = [bot1; ctl1] /\
  clients (_handle_result x (chunk_of x) w) = [bot1; send F ctl1] /\
  clients (_handle_result x (chunk_of x) w) <> deliver claimed F (clients w).
Proof.
  repeat split; try reflexivity. discriminate.
Qed.

(** C3, an instance: a control query for bot SN123 is forwarded to it and
    to nobody else. *)
Lemma forwarded_only_to_ready_peers_witness :
  let x := iq_result "user42@ecouser.net/mobile" in
  let w := world false [ctl2] bot1 [ctl1] in
  peers_forwarded bot1 w (_handle_result x (chunk_of x) w) /\
  (Py.contains "errno='103'" (chunk_of x) = false ->
   self (_handle_result x (chunk_of x) w) = bot1).
Proof.
  intros x w.
  exact (proj1 (proj2 (proj2
           (@forwarded_only_to_ready_peers (env false) x (chunk_of x) w)))
           eq_refl).
Defined.

(** C3 as stated fails on the broadcast: the result a bot addresses to
    [de.ecorobot.net] is written to the bot itself, the originator, and to
    a session that is still in CONNECT. *)
Lemma broadcast_reaches_originator_and_unready :
  let x := iq_result "de.ecorobot.net" in
  let w := world false [] bot1 [fresh] in
  let F := clean_ctl (print_element (set_default_from x (bumper_jid bot1))) in
  let w' := _handle_result x (chunk_of x) w in
  self w = bot1 /\ self w' = send F bot1 /\
  bumper_jid (self w') = bumper_jid bot1 /\
  after w' = [send F fresh] /\ state fresh <> READY.
Proof.
  repeat split; try reflexivity. discriminate.
Qed.

(** C4, an instance: the bot of the scenario, serial SN123 and password
    [pw], while the store knows no authcode but that of user42 and
    [use_auth] is on. *)
Lemma bot_auth_unconditional_witness :
  let r := @_handle_sasl_auth (env true) (auth_element "AFNOMTIzAHB3")
             fresh_bot [] in
  snd r = [BotAdd "SN123" "SN123" "xyz" "atom" "eco-legacy"] /\
  sent (fst r) = [sasl_success] /\
  type (fst r) = BOT /\ state (fst r) = INIT /\ uid (fst r) = "SN123".
Proof.
  destruct (@bot_auth_unconditional (env true) (auth_element "AFNOMTIzAHB3")
              "AFNOMTIzAHB3" (String Py.NUL "SN123" ++ String Py.NUL "pw")
              "SN123" fresh_bot []
              eq_refl ltac:(discriminate) eq_refl eq_refl ltac:(discriminate))
    as (Hd & Hsent & Hty & Hu & Hinit & _).
  split; [exact Hd|]. split; [exact Hsent|]. split; [exact Hty|].
  split; [apply Hinit; discriminate|exact Hu].
Defined.

(** C4 as stated fails: a bot that is READY and submits a decodable payload
    is registered and sent [<success/>], and its state does not become
    INIT: it stays READY. *)
Lemma auth_of_a_ready_bot_does_not_lead_to_init :
  let r := @_handle_sasl_auth (env true) (auth_element "AFNOMTIzAHB3")
             bot1 [] in
  devclass bot1 = "xyz" /\
  @b64decode (env true) "AFNOMTIzAHB3"
  = Some (String Py.NUL "SN123" ++ String Py.NUL "pw") /\
  snd r = [BotAdd "SN123" "SN123" "xyz" "atom" "eco-legacy"] /\
  sent (fst r) = [sasl_success] /\ type (fst r) = BOT /\
  state (fst r) = READY /\ state (fst r) <> INIT.
Proof.
  repeat split; try reflexivity. discriminate.
Qed.

(** C5, an instance: the slash-delimited payload of user42 carries the
    authcode on file and is accepted although [use_auth] is on. *)
Lemma controller_auth_witness :
  let r := @_handle_sasl_auth (env true)
             (auth_element "AHVzZXI0Mi9tb2JpbGUvc2VjcmV0") fresh [] in
  uid (fst r) = "user42" /\ sent (fst r) = [sasl_success] /\
  type (fst r) = CONTROLLER /\ state (fst r) = INIT.
Proof.
  destruct (@controller_auth (env true)
              (auth_element "AHVzZXI0Mi9tb2JpbGUvc2VjcmV0")
              "AHVzZXI0Mi9tb2JpbGUvc2VjcmV0"
              (String Py.NUL "user42/mobile/secret") "user42" fresh []
              eq_refl ltac:(discriminate) eq_refl eq_refl eq_refl)
    as (Hu & _ & Hiff & Hok & _).
  destruct (Hok eq_refl) as (Hty & _ & Hst & _).
  split; [exact Hu|].
  split; [apply Hiff; reflexivity|].
  split; [exact Hty|apply Hst; discriminate].
Defined.

(** C5 as stated fails: in the form NUL authcid NUL password the trailing
    field is the password, and [check_authcode("user42", "secret")] holds;
    the code checks the empty authcode instead, and with [use_auth] on the
    controller is answered [<response/>] and stays in CONNECT. *)
Lemma standard_form_password_is_not_the_authcode :
  let r := @_handle_sasl_auth (env true) (auth_element "AHVzZXI0MgBzZWNyZXQ=")
             fresh [] in
  @b64decode (env true) "AHVzZXI0MgBzZWNyZXQ="
  = Some (String Py.NUL "user42" ++ String Py.NUL "secret") /\
  devclass fresh = "" /\
  @check_authcode (env true) "user42" "secret" [] = true /\
  sent (fst r) = [sasl_response] /\
  type (fst r) = UNKNOWN /\ state (fst r) = CONNECT.
Proof.
  repeat split; reflexivity.
Qed.

(** C6, an instance: the payload [user42], without NUL. *)
Lemma auth_without_separator_witness :
  @_handle_sasl_auth (env true) (auth_element "dXNlcjQy") fresh []
  = (fresh, []).
Proof.
  apply (@auth_without_separator (env true) (auth_element "dXNlcjQy")
           "dXNlcjQy" "user42"); reflexivity.
Defined.

(** C6 as stated fails: the payload [user42] decodes to a text without
    NUL, and the server replies nothing, so no [<response/>]. *)
Lemma no_response_without_separator :
  let r := @_handle_sasl_auth (env true) (auth_element "dXNlcjQy") fresh [] in
  @b64decode (env true) "dXNlcjQy" = Some "user42" /\
  Py.contains (String Py.NUL "") "user42" = false /\
  sent (fst r) = [] /\
  sent (fst r) <> (sent fresh ++ [sasl_response])%list.
Proof.
  repeat split; try reflexivity. discriminate.
Qed.

(** C7, an instance: a ready controller closes its stream. *)
Lemma lone_stream_close_witness :
  let w' := parse_data lone_close (world true [bot1] ctl1 []) in
  sent (self w') = ["</stream:stream>"] /\
  state (self w') = DISCONNECT /\
  closed (transport (self w')) = true /\
  before w' = [bot1] /\ after w' = [].
Proof.
  apply (@lone_stream_close (env true) (world true [bot1] ctl1 [])
           "mismatched tag: line 1, column 8");
    (reflexivity || discriminate).
Defined.

(** C8, an instance: bot SN123 denies [user42@ecouser.net/mobile] and
    names [ownerA]; with [use_auth] off the three stanzas go out. *)
Lemma enrollment_on_permission_denied_witness :
  let x := iq_denied "user42@ecouser.net/mobile" in
  let w' := _handle_result x (denied_chunk "user42@ecouser.net/mobile")
              (world false [] bot1 [ctl1]) in
  sent (self w')
  = [adduser (uuid 0) "ownerA" "SN123@xyz.ecorobot.net/atom"
       "user42@ecouser.net";
     adduseracs (uuid 1) "ownerA" "SN123@xyz.ecorobot.net/atom"
       "user42@ecouser.net";
     getuserinfo (uuid 2) "ownerA" "SN123@xyz.ecorobot.net/atom"] /\
  after w' = [ctl1].
Proof.
  intros x w'.
  destruct (@enrollment_on_permission_denied (env false) x
              (denied_chunk "user42@ecouser.net/mobile")
              (world false [] bot1 [ctl1])
              (mkElement "query" [] None
                 [mkElement "ctl"
                    [("errno", "103");
                     ("error", "permission denied, please contact ownerA")]
                    None []])
              []
              (mkElement "ctl"
                 [("errno", "103");
                  ("error", "permission denied, please contact ownerA")]
                 None [])
              [] "user42@ecouser.net/mobile" "ownerA"
              eq_refl eq_refl eq_refl eq_refl eq_refl ltac:(discriminate)
              eq_refl)
    as (_ & _ & Hgo & _).
  destruct (Hgo eq_refl) as (Hsent & _ & _ & Hafter).
  split; [exact Hsent|exact Hafter].
Defined.

(** C8 as stated fails: the new user [fuid_tmpuser@ecouser.net], read off
    the [to] of the stanza, starts with [fuid_], and the enrollment is not
    skipped: the admin user [ownerA] is what the code tests. *)
Lemma enrollment_of_fuid_user_is_not_skipped :
  let x := iq_denied "fuid_tmpuser@ecouser.net/res" in
  let w' := _handle_result x (denied_chunk "fuid_tmpuser@ecouser.net/res")
              (world false [] bot1 [ctl1]) in
  let newuser := hd "" (Py.split "fuid_tmpuser@ecouser.net/res" "/") in
  get x "to" = Some "fuid_tmpuser@ecouser.net/res" /\
  newuser = "fuid_tmpuser@ecouser.net" /\
  Py.startswith newuser "fuid_" = true /\
  sent (self w')
  = [adduser (uuid 0) "ownerA" "SN123@xyz.ecorobot.net/atom" newuser;
     adduseracs (uuid 1) "ownerA" "SN123@xyz.ecorobot.net/atom" newuser;
     getuserinfo (uuid 2) "ownerA" "SN123@xyz.ecorobot.net/atom"] /\
  sent (self w') <> sent bot1.
Proof.
  repeat split; try reflexivity. discriminate.
Qed.

(** C9, where the code departs from it: the set to [rl.ecorobot.net] is
    acknowledged to the controller, and then the handler goes on to the
    forwarding loop; a ready bot whose uid occurs in [rl.ecorobot.net] is
    sent the stanza. *)
Theorem rl_set_is_acknowledged_then_forwarded :
  let w' := _handle_ctl iq_rl rl_chunk (world false [bot2] ctl1 [bot1]) in
  Py.contains "com:sf" rl_chunk = true /\
  get iq_rl "type" = Some "set" /\ get iq_rl "to" = Some "rl.ecorobot.net" /\
  sent (self w') = [rl_ack iq_rl ctl1] /\
  before w'
  = [send (clean_ctl (print_element (set_default_from iq_rl (bumper_jid ctl1))))
          bot2] /\
  after w' = [bot1].
Proof.
  repeat split; reflexivity.
Qed.

(** C10, an instance: the session of a connection that has only been
    accepted. *)
Lemma iq_dispatch_ignores_state_witness :
  let w' := parse_data session_chunk (world true [bot1] fresh []) in
  state (self w') = READY /\
  sent (self w')
  = [("<iq type=" ++ Py.q "result" ++ " id=" ++ Py.q "x" ++ " />")%string] /\
  type (self w') = UNKNOWN /\ uid (self w') = "" /\
  before w' = [bot1] /\ after w' = [].
Proof.
  apply (proj2 (proj2 (proj2 (proj2 (proj2 (proj2 (proj2
           (@iq_dispatch_ignores_state (env true))))))))
           (world true [bot1] fresh []));
    reflexivity.
Defined.

(** C10 as stated fails: the child tag and the [type] attribute do not
    alone choose the handler.  The same roster query, in the same chunk, to
    two READY sessions that differ in their kind only: the controller is
    answered the 501 error by the control handler, the bot is handed to the
    result handler, which answers nothing. *)
Lemma query_dispatch_depends_on_the_kind :
  let w1 := world false [] ctl1 [] in
  let w2 := world false [] (with_type BOT ctl1) [] in
  first_child_tag Cases.roster_iq = Some "query" /\
  get Cases.roster_iq "type" = Some "get" /\
  state (self w1) = state (self w2) /\
  sent (self (_handle_iq Cases.roster_iq Cases.roster_chunk w1))
  = [not_implemented (Some "r1")] /\
  _handle_iq Cases.roster_iq Cases.roster_chunk w2 = w2 /\
  sent (self (_handle_iq Cases.roster_iq Cases.roster_chunk w1))
  <> sent (self (_handle_iq Cases.roster_iq Cases.roster_chunk w2)).
Proof.
  repeat split; try reflexivity. discriminate.
Qed.

(** ** What a chunk can and cannot do *)

Section Progress.

Context {E : Externals}.

Lemma evolves_same s s' :
  state s' = state s -> TLSUpgraded s' = TLSUpgraded s ->
  transport s' = transport s -> evolves s s'.
Proof.
  intros Hst Htls Htr. unfold evolves, sent. rewrite Hst, Htls, Htr.
  split; [left; reflexivity|].
  split; [reflexivity|].
  split; [exists []; rewrite app_nil_r; reflexivity|].
  split; [tauto|intros H1 H2; contradiction].
Qed.

Lemma evolves_refl s : evolves s s.
Proof. apply evolves_same; reflexivity. Qed.

Lemma evolves_trans s1 s2 s3 : evolves s1 s2 -> evolves s2 s3 -> evolves s1 s3.
Proof.
  unfold evolves.
  intros (Hs1 & Ht1 & (l1 & Hl1) & Hc1 & Hd1) (Hs2 & Ht2 & (l2 & Hl2) & Hc2 & Hd2).
  split; [|split; [|split; [|split]]].
  - destruct Hs1 as [Hs1|Hs1], Hs2 as [Hs2|Hs2]; [left|right|right|right]; lia.
  - congruence.
  - exists (l1 ++ l2)%list. rewrite Hl2, Hl1, app_assoc. reflexivity.
  - auto.
  - intros H3 H1.
    destruct (Z.eq_dec (state s2) DISCONNECT) as [H2|H2].
    + apply Hc2, Hd1; assumption.
    + apply Hd2; assumption.
Qed.

Lemma evolves_send msg s : evolves s (send msg s).
Proof.
  unfold evolves, sent; simpl.
  split; [left; reflexivity|].
  split; [reflexivity|].
  split; [exists [msg]; reflexivity|].
  split; [tauto|intros H1 H2; contradiction].
Qed.

Lemma _disconnect_evolves s d : evolves s (fst (_disconnect s d)).
Proof.
  unfold evolves, sent; simpl.
  split; [left; reflexivity|].
  split; [reflexivity|].
  split; [exists []; rewrite app_nil_r; reflexivity|].
  split; reflexivity.
Qed.

Lemma set_state_evolving name : evolving (set_state name).
Proof.
  intros s d. unfold set_state.
  destruct (getattr name) as [v|] eqn:Hn; [|apply evolves_refl].
  destruct (state s >? v) eqn:Hgt; [apply evolves_refl|].
  pose proof (getattr_range name v Hn) as Hr.
  assert (Hst : v = state s \/ (state s < v /\ v <= DISCONNECT)).
  { destruct (Z.eq_dec (state s) v); [left; congruence|right].
    unfold DISCONNECT. lia. }
  destruct (v =? 5) eqn:Hv.
  - unfold evolves, sent; simpl.
    split; [exact Hst|].
    split; [reflexivity|].
    split; [exists []; rewrite app_nil_r; reflexivity|].
    split; reflexivity.
  - apply Z.eqb_neq in Hv.
    unfold evolves, sent; simpl.
    split; [exact Hst|].
    split; [reflexivity|].
    split; [exists []; rewrite app_nil_r; reflexivity|].
    split; [tauto|]. unfold DISCONNECT. intros H. contradiction.
Qed.

Lemma evolves_set_state name s s' d :
  evolves s s' -> evolves s (fst (set_state name s' d)).
Proof.
  intros H. eapply evolves_trans; [exact H|apply set_state_evolving].
Qed.

Lemma evolves_sent msg s s' : evolves s s' -> evolves s (send msg s').
Proof.
  intros H. eapply evolves_trans; [exact H|apply evolves_send].
Qed.

Lemma _handle_sasl_auth_evolving xml : evolving (_handle_sasl_auth xml).
Proof.
  intros s d. unfold _handle_sasl_auth.
  destruct (text xml) as [t|]; [|apply evolves_refl].
  destruct (Py.truthy t); [|apply evolves_refl]. cbn [negb].
  destruct (b64decode t) as [decoded|]; [|apply evolves_refl].
  destruct (sasl_fields decoded) as [[[username resource] authcode]|];
    [|apply evolves_refl].
  set (s2 := match resource with
             | Some r => with_clientresource r (with_uid username s)
             | None => with_uid username s
             end).
  assert (Hs2 : evolves s s2)
    by (subst s2; destruct resource; apply evolves_same; reflexivity).
  destruct (Py.truthy (devclass s2)).
  - apply evolves_set_state, evolves_sent.
    eapply evolves_trans; [exact Hs2|apply evolves_same; reflexivity].
  - destruct (check_authcode (uid s2) authcode d || negb use_auth).
    + assert (H3 : evolves s (with_type CONTROLLER s2))
        by (eapply evolves_trans; [exact Hs2|apply evolves_same; reflexivity]).
      pose proof (evolves_set_state "INIT" s (with_type CONTROLLER s2)
                    (client_add (uid (with_type CONTROLLER s2)) "bumper"
                       (clientresource (with_type CONTROLLER s2)) d) H3) as H4.
      destruct (set_state "INIT" _ _) as [s4 d2].
      apply evolves_sent. exact H4.
    + apply evolves_sent. exact Hs2.
Qed.

Lemma _handle_bind_evolving xml : evolving (_handle_bind xml).
Proof.
  intros s d. unfold _handle_bind.
  set (d2 := match client_get _ _ with Some _ => _ | None => _ end).
  assert (Hfin : forall s', evolves s s' ->
            evolves s (fst (let (s'', d3) := set_state "BIND" s' d2 in
                     (send (bind_result (get xml "id") (bumper_jid s')) s'', d3)))).
  { intros s' Hs'. pose proof (evolves_set_state "BIND" s s' d2 Hs') as H.
    destruct (set_state "BIND" s' d2) as [s'' d3].
    apply evolves_sent. exact H. }
  destruct (children xml) as [|bind rest]; [apply evolves_refl|].
  destruct (Py.truthy (devclass s));
    [apply Hfin, evolves_same; reflexivity|].
  destruct (children bind) as [|r rs];
    [apply Hfin, evolves_same; reflexivity|].
  destruct (text r) as [t|]; [|apply evolves_refl].
  destruct (Py.truthy t); [|apply evolves_refl].
  apply Hfin, evolves_same; reflexivity.
Qed.

Lemma _handle_session_evolving xml : evolving (_handle_session xml).
Proof.
  intros s d. unfold _handle_session.
  pose proof (set_state_evolving "READY" s d) as H.
  destruct (set_state "READY" s d) as [s1 d1].
  eapply evolves_trans; [apply evolves_sent; exact H|].
  apply evolves_same; reflexivity.
Qed.

Lemma _handle_presence_evolving xml : evolving (_handle_presence xml).
Proof.
  intros s d. unfold _handle_presence.
  destruct (match children xml with c :: _ => _ | [] => _ end).
  - destruct (type s =? BOT); cbn [fst].
    + apply evolves_sent, evolves_send.
    + apply evolves_send.
  - destruct (Py.eq_opt (get xml "type") "available"); [apply evolves_send|].
    destruct (Py.eq_opt (get xml "type") "unavailable"); [|apply evolves_send].
    apply set_state_evolving.
Qed.

Lemma _handle_connect_evolving data xml : evolving (_handle_connect data xml).
Proof.
  intros s d. unfold _handle_connect.
  destruct (state s =? CONNECT).
  - destruct xml as [x|].
    + destruct (Py.contains _ (tag x));
        [apply _handle_sasl_auth_evolving|apply evolves_refl].
    + destruct (Py.find data "jabber:client" >? -1); [|apply evolves_send].
      set (s1 := if _ >? -1 then with_devclass _ s else s).
      assert (H1 : evolves s s1).
      { subst s1. destruct (_ >? -1);
          [apply evolves_same; reflexivity|apply evolves_refl]. }
      destruct (negb _); cbn [fst]; apply evolves_sent, evolves_sent, H1.
  - destruct (state s =? INIT); [|apply evolves_refl].
    destruct xml as [x|].
    + destruct (String.eqb (tag x) "iq"); [|apply evolves_refl].
      destruct (Py.eq_opt _ "bind");
        [apply _handle_bind_evolving|apply evolves_refl].
    + destruct (Py.find data "jabber:client" >? -1); [|apply evolves_refl].
      apply evolves_sent, evolves_send.
Qed.

Lemma sends_app l1 l2 c : sends (l1 ++ l2) c = sends l2 (sends l1 c).
Proof. unfold sends. apply fold_left_app. Qed.

Lemma only_sent_refl c : only_sent c c.
Proof. exists []. reflexivity. Qed.

Lemma only_sent_trans c1 c2 c3 :
  only_sent c1 c2 -> only_sent c2 c3 -> only_sent c1 c3.
Proof.
  intros [l1 H1] [l2 H2]. exists (l1 ++ l2)%list.
  rewrite sends_app, <- H1, <- H2. reflexivity.
Qed.

Lemma only_sent_send msg c : only_sent c (send msg c).
Proof. exists [msg]. reflexivity. Qed.

Lemma all_only_sent_refl l : Forall2 only_sent l l.
Proof. induction l; constructor; [apply only_sent_refl|assumption]. Qed.

Lemma all_only_sent_trans l1 l2 l3 :
  Forall2 only_sent l1 l2 -> Forall2 only_sent l2 l3 ->
  Forall2 only_sent l1 l3.
Proof.
  intros H12. revert l3.
  induction H12 as [|a b l1 l2 Hab _ IH]; intros l3 H23;
    inversion H23; subst; constructor.
  - eapply only_sent_trans; eassumption.
  - apply IH. assumption.
Qed.

Lemma all_only_sent_map f l :
  (forall c, only_sent c (f c)) -> Forall2 only_sent l (map f l).
Proof.
  intros Hf. induction l; simpl; constructor; [apply Hf|assumption].
Qed.

Lemma progress_intro w w' :
  evolves (self w) (self w') ->
  Forall2 only_sent (before w) (before w') ->
  Forall2 only_sent (after w) (after w') -> progress w w'.
Proof. intros Hs Hb Ha. split; [exact Hs|split; [exact Hb|exact Ha]]. Qed.

Lemma progress_refl w : progress w w.
Proof.
  apply progress_intro; [apply evolves_refl|apply all_only_sent_refl..].
Qed.

Lemma progress_trans w1 w2 w3 :
  progress w1 w2 -> progress w2 w3 -> progress w1 w3.
Proof.
  intros (Hs1 & Hb1 & Ha1) (Hs2 & Hb2 & Ha2). apply progress_intro.
  - eapply evolves_trans; eassumption.
  - eapply all_only_sent_trans; eassumption.
  - eapply all_only_sent_trans; eassumption.
Qed.

Lemma on_self_progress f w :
  evolves (self w) (f (self w)) -> progress w (on_self f w).
Proof.
  intros H. apply progress_intro; [exact H|apply all_only_sent_refl..].
Qed.

Lemma on_self_db_progress f w : evolving f -> progress w (on_self_db f w).
Proof.
  intros Hf. unfold progress, on_self_db.
  specialize (Hf (self w) (db w)).
  destruct (f (self w) (db w)) as [s d]; simpl in *.
  split; [exact Hf|split; apply all_only_sent_refl].
Qed.

Lemma for_clients_progress f w :
  (forall c, evolves c (f c)) -> (forall c, only_sent c (f c)) ->
  progress w (for_clients f w).
Proof.
  intros He Ho. apply progress_intro; simpl;
    [apply He|apply all_only_sent_map, Ho..].
Qed.

Lemma send_where_progress cond msg w : progress w (send_where cond msg w).
Proof.
  apply for_clients_progress; intros c; destruct (cond c);
    try apply evolves_send; try apply evolves_refl;
    try apply only_sent_send; apply only_sent_refl.
Qed.

Lemma send_self_progress msg w : progress w (on_self (send msg) w).
Proof. apply on_self_progress, evolves_send. Qed.

Lemma enroll_progress adminuser to w : progress w (enroll adminuser to w).
Proof.
  unfold enroll. apply progress_intro; cbn [self before after];
    [|apply all_only_sent_refl..].
  apply evolves_sent, evolves_sent, evolves_send.
Qed.

Lemma _handle_ctl_progress xml data w : progress w (_handle_ctl xml data w).
Proof.
  unfold _handle_ctl.
  repeat match goal with
         | |- progress _ (if Py.contains ?a ?b then _ else _) =>
             destruct (Py.contains a b); [apply send_self_progress|]
         end.
  match goal with
  | |- context [if ?c then on_self ?f w else w] =>
      set (w1 := if c then on_self f w else w);
      assert (H1 : progress w w1)
        by (subst w1; destruct c;
            [apply send_self_progress|apply progress_refl])
  end.
  destruct (children xml) as [|query rest]; [exact H1|].
  destruct (match children query with _ :: _ => _ | [] => _ end); [exact H1|].
  eapply progress_trans; [exact H1|apply send_where_progress].
Qed.

Lemma _handle_ping_progress xml w : progress w (_handle_ping xml w).
Proof.
  unfold _handle_ping.
  destruct (match get xml "to" with Some _ => _ | None => _ end).
  - apply send_self_progress.
  - apply send_where_progress.
Qed.

Lemma _handle_result_progress xml data w :
  progress w (_handle_result xml data w).
Proof.
  unfold _handle_result.
  destruct (Py.contains "errno='103'" data).
  - repeat match goal with
           | |- progress _ (enroll _ _ _) => apply enroll_progress
           | |- progress ?w ?w => apply progress_refl
           | |- progress _ (if ?b then _ else _) => destruct b
           | |- progress _ (match ?x with _ => _ end) => destruct x
           end.
  - match goal with
    | |- context [if ?c then for_clients ?f w else w] =>
        set (w1 := if c then for_clients f w else w);
        assert (H1 : progress w w1)
          by (subst w1; destruct c;
              [apply for_clients_progress; intros;
               [apply evolves_send|apply only_sent_send]
              |apply progress_refl])
    end.
    destruct (result_dest _ _); [|exact H1].
    eapply progress_trans; [exact H1|apply send_where_progress].
Qed.

Lemma _handle_iq_progress xml data w : progress w (_handle_iq xml data w).
Proof.
  unfold _handle_iq.
  repeat match goal with
         | |- progress ?w ?w => apply progress_refl
         | |- progress _ (on_self_db (_handle_bind _) _) =>
             apply on_self_db_progress, _handle_bind_evolving
         | |- progress _ (on_self_db (_handle_session _) _) =>
             apply on_self_db_progress, _handle_session_evolving
         | |- progress _ (_handle_ping _ _) => apply _handle_ping_progress
         | |- progress _ (_handle_result _ _ _) => apply _handle_result_progress
         | |- progress _ (_handle_ctl _ _ _) => apply _handle_ctl_progress
         | |- progress _ (if ?b then _ else _) => destruct b
         end.
Qed.

Lemma fold_handle_progress newdata kids :
  Forall (fun k => forall w, progress w (handle_item newdata k w)) kids ->
  forall w,
    progress w (fold_left (fun acc kid => handle_item newdata kid acc) kids w).
Proof.
  induction 1 as [|k kids Hk _ IH]; intros w; simpl.
  - apply progress_refl.
  - eapply progress_trans; [apply Hk|apply IH].
Qed.

Lemma handle_item_progress newdata item :
  forall w, progress w (handle_item newdata item w).
Proof.
  induction item as [t a x kids IH] using Element_nested_ind.
  intros w. simpl.
  pose proof (fold_handle_progress newdata kids IH) as Hfold.
  destruct (String.eqb t "root"); [apply Hfold|].
  destruct (String.eqb t "iq"); [apply _handle_iq_progress|].
  destruct (Py.contains "auth" t).
  { destruct (Py.contains _ t); [|apply Hfold].
    apply on_self_db_progress, _handle_sasl_auth_evolving. }
  destruct (Py.contains "-tls" t).
  { eapply progress_trans; [|apply Hfold].
    destruct (negb _); [|apply progress_refl].
    apply on_self_progress, evolves_same; reflexivity. }
  destruct (Py.contains "presence" t); [|apply Hfold].
  apply on_self_db_progress, _handle_presence_evolving.
Qed.

Lemma handle_stream_open_progress newdata w :
  progress w (handle_stream_open newdata w).
Proof.
  unfold handle_stream_open. destruct (_ || _); [|apply progress_refl].
  apply on_self_db_progress, _handle_connect_evolving.
Qed.

Lemma parse_data_progress data w : progress w (parse_data data w).
Proof.
  unfold parse_data.
  destruct (fromstring (wrap_root data)) as [root|msg].
  - apply handle_item_progress.
  - repeat match goal with
           | |- progress ?w ?w => apply progress_refl
           | |- progress _ (handle_stream_open _ _) =>
               apply handle_stream_open_progress
           | |- progress _ (on_self (send _) _) => apply send_self_progress
           | |- progress _ (on_self_db _ (on_self _ _)) =>
               eapply progress_trans;
               [apply send_self_progress
               |apply on_self_db_progress, set_state_evolving]
           | |- progress _ (if ?b then _ else _) => destruct b
           end.
Qed.

Lemma handle_event_peers e w :
  Forall2 only_sent (before w) (before (handle_event e w)) /\
  Forall2 only_sent (after w) (after (handle_event e w)).
Proof.
  destruct e; simpl; try (split; apply all_only_sent_refl).
  destruct (parse_data_progress data w) as (_ & Hb & Ha). split; assumption.
Qed.

Lemma handle_event_state e w :
  state (self (handle_event e w)) = state (self w) \/
  (state (self w) < state (self (handle_event e w)) /\
   state (self (handle_event e w)) <= DISCONNECT).
Proof.
  destruct e; simpl.
  - destruct (parse_data_progress data w) as ((Hs & _) & _). exact Hs.
  - left. unfold schedule_ping. destruct (negb _); reflexivity.
  - left. unfold _handle_starttls. destruct (negb _); reflexivity.
  - left. reflexivity.
Qed.

Lemma handle_event_tls e w :
  TLSUpgraded (self w) = true -> TLSUpgraded (self (handle_event e w)) = true.
Proof.
  intros H. destruct e; simpl.
  - destruct (parse_data_progress data w) as ((_ & Ht & _) & _). congruence.
  - unfold schedule_ping. destruct (negb _); exact H.
  - unfold _handle_starttls. rewrite H. exact H.
  - exact H.
Qed.

(** X1.  Whatever a session receives or does - chunks, pings, the STARTTLS
    task, the new transport - every peer in the registry is afterwards what
    it was but for the stanzas written to it: the handlers of one session
    never change the state, kind, uid, JID, resource, device class, TLS flag
    or tasks of another, nor close its transport. *)
Theorem peers_are_only_written_to events :
  forall w,
    Forall2 only_sent (before w) (before (run events w)) /\
    Forall2 only_sent (after w) (after (run events w)).
Proof.
  unfold run. induction events as [|e events IH]; intros w; simpl.
  - split; apply all_only_sent_refl.
  - destruct (handle_event_peers e w) as [Hb Ha].
    destruct (IH (handle_event e w)) as [Hb' Ha'].
    split; eapply all_only_sent_trans; eassumption.
Qed.

Lemma run_state events :
  forall w,
    state (self (run events w)) = state (self w) \/
    (state (self w) < state (self (run events w)) /\
     state (self (run events w)) <= DISCONNECT).
Proof.
  unfold run. induction events as [|e events IH]; intros w; simpl.
  - left. reflexivity.
  - destruct (handle_event_state e w) as [H1|H1],
             (IH (handle_event e w)) as [H2|H2]; [left|right|right|right]; lia.
Qed.

(** X2.  DISCONNECT is final and the state stays among the six: a session
    whose state is at most DISCONNECT keeps a state that is at most
    DISCONNECT whatever it receives, and a session in DISCONNECT stays in
    DISCONNECT; a ping that falls due for it writes nothing. *)
Theorem disconnect_is_final events w :
  (state (self w) <= DISCONNECT -> state (self (run events w)) <= DISCONNECT) /\
  (state (self w) = DISCONNECT ->
   state (self (run events w)) = DISCONNECT /\
   handle_event ping_due w = w).
Proof.
  pose proof (run_state events w) as H.
  split; intros Hw; [lia|].
  split; [lia|].
  unfold handle_event, on_self, schedule_ping. rewrite Hw.
  destruct w; reflexivity.
Qed.

(** X3.  The TLS flag is raised by the STARTTLS task and by nothing else,
    and is never lowered: a chunk leaves it as it is (it only schedules the
    task), no run of events lowers it, and once it is up the task does
    nothing - a second [<proceed/>] is never written. *)
Theorem tls_flag_is_raised_once :
  (forall data w,
      TLSUpgraded (self (parse_data data w)) = TLSUpgraded (self w)) /\
  (forall events w,
      TLSUpgraded (self w) = true ->
      TLSUpgraded (self (run events w)) = true) /\
  (forall s,
      TLSUpgraded (_handle_starttls s) = true /\
      _handle_starttls (_handle_starttls s) = _handle_starttls s) /\
  (forall s,
      TLSUpgraded s = false ->
      sent (_handle_starttls s)
      = (sent s ++ ["<proceed xmlns='urn:ietf:params:xml:ns:xmpp-tls'/>"])%list).
Proof.
  split; [|split; [|split]].
  - intros data w.
    destruct (parse_data_progress data w) as ((_ & Ht & _) & _). exact Ht.
  - intros events. unfold run.
    induction events as [|e events IH]; intros w Hw; simpl; [exact Hw|].
    apply IH, handle_event_tls, Hw.
  - intros s. unfold _handle_starttls.
    destruct (TLSUpgraded s) eqn:Ht; simpl; rewrite ?Ht; split; reflexivity.
  - intros s Ht. unfold _handle_starttls. rewrite Ht. reflexivity.
Qed.

(** X4.  Teardown closes: when a chunk brings its session to DISCONNECT
    the transport of the session is closed, and no chunk reopens a closed
    transport. *)
Theorem chunk_to_disconnect_closes data w :
  (state (self (parse_data data w)) = DISCONNECT ->
   state (self w) <> DISCONNECT ->
   closed (transport (self (parse_data data w))) = true) /\
  (closed (transport (self w)) = true ->
   closed (transport (self (parse_data data w))) = true).
Proof.
  destruct (parse_data_progress data w) as ((_ & _ & _ & Hc & Hd) & _).
  split; assumption.
Qed.

End Progress.

(** ** More on routing *)

Section MoreRouting.

Context {E : Externals}.

Lemma deliver_nobody cond msg l :
  (forall c, cond c = false) -> deliver cond msg l = l.
Proof.
  intros H. unfold deliver. rewrite <- (map_id l) at 2.
  apply map_ext. intros c. rewrite H. reflexivity.
Qed.

Lemma send_where_nobody cond msg w :
  (forall c, cond c = false) -> send_where cond msg w = w.
Proof.
  intros H. unfold send_where, for_clients.
  fold (deliver cond msg (before w)). fold (deliver cond msg (after w)).
  rewrite !deliver_nobody, H by exact H. destruct w; reflexivity.
Qed.

Lemma deliver_in cond msg l c :
  In c l -> cond c = true -> In (send msg c) (deliver cond msg l).
Proof.
  intros Hin Hc. unfold deliver.
  apply in_map_iff. exists c. rewrite Hc. split; [reflexivity|exact Hin].
Qed.

Lemma contains_empty s : Py.contains "" s = true.
Proof. destruct s; reflexivity. Qed.

Lemma uid_in_empty c to : uid c = "" -> uid_in c to = true.
Proof. intros H. unfold uid_in. rewrite H. apply contains_empty. Qed.

(** X5.  The broadcast of a bot to [de.ecorobot.net] is written to every
    session of the registry, and the routing loop that follows writes it
    once more to the READY sessions under another JID: such a peer is sent
    the stanza twice, every other session, the bot included, once. *)
Theorem broadcast_is_doubled_for_ready_peers xml data w :
  Py.contains "errno='103'" data = false ->
  type (self w) = BOT ->
  get xml "to" = Some "de.ecorobot.net" ->
  let me := self w in
  let F := clean_ctl (tostring (set_default_from xml (bumper_jid me))) in
  clients (_handle_result xml data w)
  = map (fun c => if peer_ready me c then send F (send F c) else send F c)
        (clients w).
Proof.
  intros Herr Hbot Hto me F. unfold _handle_result.
  rewrite Herr, Hbot, Hto, get_set_default_from, Hto by reflexivity.
  cbn [Z.eqb Pos.eqb BOT Py.eq_opt String.eqb Ascii.eqb Bool.eqb andb].
  change (result_dest (Some "de.ecorobot.net") (Some "de.ecorobot.net"))
    with (Some "de.ecorobot.net").
  cbv iota. fold me. fold F.
  rewrite clients_send_where.
  replace (clients (for_clients (send F) w)) with (map (send F) (clients w))
    by (unfold clients, for_clients; simpl; rewrite map_app; reflexivity).
  unfold deliver. rewrite map_map. apply map_ext. intros c.
  unfold result_recipient, peer_ready. cbn [bumper_jid state send with_transport].
  replace (Py.contains "@" "de.ecorobot.net") with false by reflexivity.
  cbn [negb orb]. rewrite andb_true_r. reflexivity.
Qed.

(** X6.  A chunk that holds [errno='103'] is never forwarded: whoever sent
    it, no peer is written to and the store is left alone; from a session
    that is not a bot it has no effect at all. *)
Theorem permission_denied_is_never_forwarded xml data w :
  Py.contains "errno='103'" data = true ->
  let w' := _handle_result xml data w in
  before w' = before w /\ after w' = after w /\ db w' = db w /\
  (type (self w) <> BOT -> w' = w).
Proof.
  intros Herr w'. subst w'. unfold _handle_result. rewrite Herr.
  destruct (type (self w) =? BOT) eqn:Hty.
  - apply Z.eqb_eq in Hty.
    repeat match goal with
           | |- context [enroll] =>
               first [ progress (cbn [enroll before after db])
                     | fail 1 ]
           | |- context [if ?b then _ else _] => destruct b
           | |- context [match ?x with _ => _ end] => destruct x
           end;
      repeat split; try reflexivity; try (intros H; contradiction).
  - repeat split; reflexivity.
Qed.

(** X7.  The match on the uid is a substring match, so the empty uid
    matches every destination: a READY session without uid (such as one
    that never authenticated) under another JID than the originator's is
    sent every routed result with a [to], and every ping that is forwarded
    (a [to] with an [@]). *)
Theorem session_without_uid_receives_everything xml data w c to :
  In c (before w ++ after w) ->
  uid c = "" -> state c = READY -> bumper_jid c <> bumper_jid (self w) ->
  get xml "to" = Some to -> to <> "" ->
  let me := self w in
  (Py.contains "errno='103'" data = false ->
   (type me =? BOT) && Py.eq_opt (get xml "to") "de.ecorobot.net" = false ->
   let w' := _handle_result xml data w in
   In (send (clean_ctl (tostring (set_default_from xml (bumper_jid me)))) c)
      (before w' ++ after w')) /\
  (Py.contains "@" to = true ->
   let w' := _handle_ping xml w in
   In (send (clean_ping (tostring (set_default_from xml (bumper_jid me)))) c)
      (before w' ++ after w')).
Proof.
  intros Hin Hu Hst Hj Hto Hne me. subst me.
  assert (Hready : peer_ready (self w) c = true).
  { apply String.eqb_neq in Hj. unfold peer_ready.
    rewrite Hst, Hj. reflexivity. }
  assert (Hdel : forall cond msg,
             cond c = true ->
             In (send msg c)
                (before (send_where cond msg w) ++ after (send_where cond msg w))).
  { intros cond msg Hc. cbn [send_where for_clients before after].
    rewrite <- map_app. apply (deliver_in cond msg _ c Hin Hc). }
  split.
  - intros Herr Hbc w'. subst w'.
    rewrite (_handle_result_forward xml data w Herr Hbc), Hto.
    assert (Hd : exists dest, result_dest (Some to) (Some to) = Some dest).
    { destruct (Py.contains "@" to) eqn:Hat.
      - rewrite (result_dest_at to Hat). eexists. reflexivity.
      - rewrite (result_dest_bare to Hne Hat). eexists. reflexivity. }
    destruct Hd as [dest ->]. apply Hdel.
    unfold result_recipient. rewrite Hready, (uid_in_empty c dest Hu).
    apply orb_true_r.
  - intros Hat w'. subst w'. unfold _handle_ping. rewrite Hto.
    rewrite find_contains, Hat. cbn [negb]. rewrite andb_false_r.
    apply Hdel. unfold ping_recipient.
    rewrite Hready, (uid_in_empty c to Hu). cbn [Py.truthy_opt].
    rewrite (truthy_nonempty to Hne). reflexivity.
Qed.

(** What [_handle_ctl] may do to a peer: nothing, or write to it when it
    is a READY bot under another JID whose uid occurs in the [to] of the
    stanza. *)
Lemma deliver_ctl me to msg l :
  Forall2 (fun c c' =>
             c' = c \/
             (c' = send msg c /\ type c = BOT /\ state c = READY /\
              bumper_jid c <> bumper_jid me /\
              exists t, to = Some t /\ t <> "" /\ uid_in c t = true))
          l (deliver (ctl_recipient me to) msg l).
Proof.
  induction l as [|c l IH]; simpl; constructor; [|exact IH].
  destruct (ctl_recipient me to c) eqn:Hc; [|left; reflexivity].
  right. unfold ctl_recipient in Hc.
  apply andb_true_iff in Hc as [Hc Hu].
  apply andb_true_iff in Hc as [Hr Hc].
  apply andb_true_iff in Hc as [Hb Ht].
  apply peer_ready_true in Hr as [Hj Hs].
  apply Z.eqb_eq in Hb.
  destruct to as [t|]; [|discriminate].
  repeat split; try assumption.
  exists t. repeat split; try assumption.
  intros ->. discriminate.
Qed.

(** X8.  A control query only ever reaches bots: whatever the stanza and
    the chunk, a peer that [_handle_ctl] writes to is a READY bot under
    another JID than the originator's whose lowercased uid occurs in the
    lowercased [to], which is there and not empty, and it is written to
    once; a controller, or anyone when the stanza has no [to], is not
    written to. *)
Theorem control_queries_reach_only_bots xml data w :
  let me := self w in
  let F := clean_ctl (tostring (set_default_from xml (bumper_jid me))) in
  let reached c c' :=
    c' = c \/
    (c' = send F c /\ type c = BOT /\ state c = READY /\
     bumper_jid c <> bumper_jid me /\
     exists t, get xml "to" = Some t /\ t <> "" /\ uid_in c t = true) in
  Forall2 reached (before w) (before (_handle_ctl xml data w)) /\
  Forall2 reached (after w) (after (_handle_ctl xml data w)).
Proof.
  intros me F reached.
  assert (Hsame : forall l, Forall2 reached l l).
  { induction l; constructor; [left; reflexivity|assumption]. }
  unfold _handle_ctl. fold me.
  repeat match goal with
         | |- context [if Py.contains ?a data then _ else _] =>
             destruct (Py.contains a data); [split; apply Hsame|]
         end.
  match goal with
  | |- context [if ?c then on_self ?f w else w] =>
      set (w1 := if c then on_self f w else w);
      assert (Hb : before w1 = before w) by (subst w1; destruct c; reflexivity);
      assert (Ha : after w1 = after w) by (subst w1; destruct c; reflexivity)
  end.
  destruct (children xml) as [|query rest];
    [rewrite Hb, Ha; split; apply Hsame|].
  destruct (match children query with _ :: _ => _ | [] => _ end);
    [rewrite Hb, Ha; split; apply Hsame|].
  cbn [send_where for_clients before after]. rewrite Hb, Ha.
  split; apply (deliver_ctl me (get xml "to") F).
Qed.

(** X9.  A ping whose [to] is not empty and has no [@] is for the server:
    it is answered to the originator and no peer is written to.  A ping
    without [to], or with an empty one, is dropped: it is neither answered
    nor forwarded. *)
Theorem ping_for_the_server_and_ping_without_to xml w :
  (forall to,
      get xml "to" = Some to -> to <> "" -> Py.contains "@" to = false ->
      _handle_ping xml w = on_self (send (ping_result xml)) w /\
      before (_handle_ping xml w) = before w /\
      after (_handle_ping xml w) = after w) /\
  (get xml "to" = None \/ get xml "to" = Some "" -> _handle_ping xml w = w).
Proof.
  split.
  - intros to Hto Hne Hat. unfold _handle_ping.
    rewrite Hto, find_contains, Hat, (truthy_nonempty to Hne).
    repeat split; reflexivity.
  - intros Hno. unfold _handle_ping.
    destruct Hno as [-> | ->]; cbn [Py.truthy String.eqb negb andb];
      apply send_where_nobody; intros c; unfold ping_recipient;
      cbn [Py.truthy_opt Py.truthy String.eqb negb];
      rewrite ?andb_false_r; reflexivity.
Qed.

End MoreRouting.

(** ** Names and payloads *)

Section Parsing.

Context {E : Externals}.

Lemma contains_char_app c a b :
  Py.contains (String c "") (a ++ b)
  = Py.contains (String c "") a || Py.contains (String c "") b.
Proof.
  induction a as [|x a IH].
  - destruct b; reflexivity.
  - change (String x a ++ b) with (String x (a ++ b)).
    rewrite !contains_char, IH. apply orb_assoc.
Qed.

Lemma split_app_sep c a b :
  Py.contains (String c "") a = false ->
  Py.split (a ++ String c b) c = a :: Py.split b c.
Proof.
  induction a as [|x a IH]; intros H.
  - cbn [append Py.split]. rewrite Ascii.eqb_refl. reflexivity.
  - rewrite contains_char in H. apply orb_false_iff in H as [Hx Ha].
    change (String x a ++ String c b) with (String x (a ++ String c b)).
    cbn [Py.split]. rewrite Ascii.eqb_sym, Hx, (IH Ha). reflexivity.
Qed.

Lemma after_first_app c a b :
  Py.contains (String c "") a = false ->
  Py.after_first (a ++ String c b) c = b.
Proof.
  induction a as [|x a IH]; intros H.
  - cbn [append Py.after_first]. rewrite Ascii.eqb_refl. reflexivity.
  - rewrite contains_char in H. apply orb_false_iff in H as [Hx Ha].
    change (String x a ++ String c b) with (String x (a ++ String c b)).
    cbn [Py.after_first]. rewrite Ascii.eqb_sym, Hx. apply IH, Ha.
Qed.

Lemma after_first_without c a :
  Py.contains (String c "") a = false -> Py.after_first a c = "".
Proof.
  induction a as [|x a IH]; intros H; [reflexivity|].
  rewrite contains_char in H. apply orb_false_iff in H as [Hx Ha].
  cbn [Py.after_first]. rewrite Ascii.eqb_sym, Hx. apply IH, Ha.
Qed.

(** X10.  [_tag_strip_uri] gives the local name of a tag: of
    [{namespace}name] it keeps [name], whatever the name; a tag that does
    not start with a brace is left as it is; and a tag that opens a brace
    and never closes it is stripped to the empty string. *)
Theorem tag_strip_uri_keeps_the_local_name :
  (forall ns name,
      Py.contains "}" ns = false ->
      _tag_strip_uri ("{" ++ ns ++ "}" ++ name) = name) /\
  (forall t, Py.startswith t "{" = false -> _tag_strip_uri t = t) /\
  (forall ns, Py.contains "}" ns = false -> _tag_strip_uri ("{" ++ ns) = "").
Proof.
  split; [|split].
  - intros ns name H. cbn [append _tag_strip_uri].
    change (String "}" name) with (String "}"%char name).
    apply after_first_app, H.
  - intros t H. destruct t as [|a t]; [reflexivity|].
    unfold Py.startswith in H. cbn [String.prefix] in H.
    unfold _tag_strip_uri.
    destruct (ascii_dec a "{") as [->|Hne].
    + exfalso. destruct t; discriminate H.
    + destruct a as [[] [] [] [] [] [] [] []]; try reflexivity.
      exfalso. apply Hne. reflexivity.
  - intros ns H. cbn [append _tag_strip_uri].
    apply after_first_without, H.
Qed.

(** X11.  The forms of a PLAIN payload as [_handle_sasl_auth] reads them,
    for an authcid, a resource and a password or code without slash or
    NUL.  In the standard form NUL authcid NUL password the uid is the
    authcid, the password is taken for the resource and the authcode is
    empty; with a third NUL field the second is the resource, the third is
    ignored and the authcode is empty again; in the slash form
    NUL authcid / resource / code the three fields are uid, resource and
    authcode. *)
Theorem sasl_payload_forms authcid a b :
  Py.contains "/" authcid = false ->
  Py.contains (String Py.NUL "") authcid = false ->
  Py.contains "/" a = false -> Py.contains (String Py.NUL "") a = false ->
  Py.contains "/" b = false -> Py.contains (String Py.NUL "") b = false ->
  sasl_fields (String Py.NUL authcid ++ String Py.NUL a)
  = Some (authcid, Some a, "") /\
  sasl_fields (String Py.NUL authcid ++ String Py.NUL a ++ String Py.NUL b)
  = Some (authcid, Some a, "") /\
  sasl_fields (String Py.NUL authcid ++ "/" ++ a ++ "/" ++ b)
  = Some (authcid, Some a, b).
Proof.
  intros Hs0 Hn0 Hs1 Hn1 Hs2 Hn2.
  assert (Hnul : Py.contains "/" (String Py.NUL "") = false) by reflexivity.
  split; [|split]; unfold sasl_fields.
  - assert (Hno : Py.contains "/" (String Py.NUL authcid ++ String Py.NUL a)
                  = false).
    { change (String Py.NUL authcid ++ String Py.NUL a)
        with (String Py.NUL "" ++ (authcid ++ (String Py.NUL "" ++ a))).
      rewrite !contains_char_app, Hnul, Hs0, Hs1. reflexivity. }
    rewrite (split_without _ _ Hno). cbn [hd].
    change (String Py.NUL authcid ++ String Py.NUL a)
      with ("" ++ String Py.NUL (authcid ++ String Py.NUL a)).
    rewrite (split_app_sep Py.NUL "" _ eq_refl).
    rewrite (split_app_sep Py.NUL authcid a Hn0).
    rewrite (split_without _ _ Hn1). reflexivity.
  - assert (Hno : Py.contains "/"
                    (String Py.NUL authcid ++ String Py.NUL a ++ String Py.NUL b)
                  = false).
    { change (String Py.NUL authcid ++ String Py.NUL a ++ String Py.NUL b)
        with (String Py.NUL ""
              ++ (authcid ++ (String Py.NUL "" ++ (a ++ (String Py.NUL "" ++ b))))).
      rewrite !contains_char_app, Hnul, Hs0, Hs1, Hs2. reflexivity. }
    rewrite (split_without _ _ Hno). cbn [hd].
    change (String Py.NUL authcid ++ String Py.NUL a ++ String Py.NUL b)
      with ("" ++ String Py.NUL (authcid ++ String Py.NUL (a ++ String Py.NUL b))).
    rewrite (split_app_sep Py.NUL "" _ eq_refl).
    rewrite (split_app_sep Py.NUL authcid _ Hn0).
    rewrite (split_app_sep Py.NUL a b Hn1).
    rewrite (split_without _ _ Hn2). reflexivity.
  - change (String Py.NUL authcid ++ "/" ++ a ++ "/" ++ b)
      with ((String Py.NUL "" ++ authcid) ++ String "/" (a ++ String "/" b)).
    assert (Hfirst : Py.contains "/" (String Py.NUL "" ++ authcid) = false)
      by (rewrite contains_char_app, Hnul, Hs0; reflexivity).
    rewrite (split_app_sep "/" _ _ Hfirst).
    rewrite (split_app_sep "/" a b Hs1).
    rewrite (split_without _ _ Hs2). cbn [hd nth_error].
    change (String Py.NUL "" ++ authcid) with ("" ++ String Py.NUL authcid).
    rewrite (split_app_sep Py.NUL "" _ eq_refl).
    rewrite (split_without _ _ Hn0). reflexivity.
Qed.

Lemma replace_absent s old new :
  Py.contains old s = false -> Py.replace s old new = s.
Proof.
  unfold Py.replace. induction s as [|a s IH]; intros H; [reflexivity|].
  cbn [Py.contains] in H. apply orb_false_iff in H as [Hp Hc].
  cbn [Py.replace_from]. rewrite Hp, (IH Hc). reflexivity.
Qed.

(** X21.  The clean-up touches only what it looks for: a serialized stanza
    that holds no prefix artifact ([xmlns:ns0=], [ns0:]), no [com:ctl]
    default on the iq and no query element is forwarded by the control and
    result handlers exactly as it was printed, and likewise a ping without
    artifact and without ping element. *)
Theorem cleanup_leaves_plain_stanzas s :
  Py.contains "xmlns:ns0=" s = false -> Py.contains "ns0:" s = false ->
  (Py.contains ("iq xmlns=" ++ Py.q "com:ctl") s = false ->
   Py.contains "<query" s = false -> clean_ctl s = s) /\
  (Py.contains ("iq xmlns=" ++ Py.q "urn:xmpp:ping") s = false ->
   Py.contains "<ping" s = false -> clean_ping s = s).
Proof.
  intros H1 H2. split; intros H3 H4.
  - unfold clean_ctl.
    rewrite (replace_absent s _ _ H1), (replace_absent s _ _ H2),
      (replace_absent s _ _ H3), (replace_absent s _ _ H4). reflexivity.
  - unfold clean_ping.
    rewrite (replace_absent s _ _ H1), (replace_absent s _ _ H2),
      (replace_absent s _ _ H3), (replace_absent s _ _ H4). reflexivity.
Qed.

End Parsing.

(** ** From SASL to READY *)

Section Handshake.

Context {E : Externals}.

Lemma set_state_to name v s d :
  getattr name = Some v -> state s <= v -> v <> 5 ->
  set_state name s d = (with_state v s, d).
Proof.
  intros Hn Hle Hv. unfold set_state. rewrite Hn.
  destruct (state s >? v) eqn:Hgt; [lia|].
  apply Z.eqb_neq in Hv. rewrite Hv. reflexivity.
Qed.

(** What a decodable payload leaves of the session before the credentials
    are looked at. *)
Lemma sasl_identified decoded username s :
  nth_error (Py.split (hd "" (Py.split decoded "/")) Py.NUL) 1 = Some username ->
  exists resource authcode s2,
    sasl_fields decoded = Some (username, resource, authcode) /\
    authcode = nth 2 (Py.split decoded "/") "" /\
    s2 = match resource with
         | Some r => with_clientresource r (with_uid username s)
         | None => with_uid username s
         end /\
    uid s2 = username /\ devclass s2 = devclass s /\ state s2 = state s /\
    type s2 = type s /\ bumper_jid s2 = bumper_jid s /\
    transport s2 = transport s /\ tasks s2 = tasks s /\
    TLSUpgraded s2 = TLSUpgraded s.
Proof.
  intros Hu. destruct (sasl_fields_authcid decoded username Hu) as [resource Hf].
  exists resource, (nth 2 (Py.split decoded "/") ""). eexists.
  split; [exact Hf|]. split; [reflexivity|]. split; [reflexivity|].
  destruct resource; repeat split; reflexivity.
Qed.

Lemma _handle_sasl_auth_bot xml payload decoded username s d :
  text xml = Some payload -> payload <> "" ->
  b64decode payload = Some decoded ->
  nth_error (Py.split (hd "" (Py.split decoded "/")) Py.NUL) 1 = Some username ->
  devclass s <> "" ->
  exists s2,
    uid s2 = username /\ devclass s2 = devclass s /\ state s2 = state s /\
    bumper_jid s2 = bumper_jid s /\ transport s2 = transport s /\
    tasks s2 = tasks s /\
    _handle_sasl_auth xml s d
    = set_state "INIT" (send sasl_success (with_type BOT s2))
        (bot_add username username (devclass s) "atom" "eco-legacy" d).
Proof.
  intros Htext Hne Hdec Hu Hdev.
  destruct (sasl_identified decoded username s Hu)
    as (resource & authcode & s2 & Hf & _ & Hs2 & Hu2 & Hd2 & Hst2 & _ & Hj2
        & Htr2 & Hta2 & _).
  exists s2. repeat (split; [assumption|]).
  unfold _handle_sasl_auth.
  rewrite Htext, (truthy_nonempty payload Hne), Hdec, Hf. cbn [negb].
  rewrite <- Hs2, Hd2, (truthy_nonempty _ Hdev), Hu2. reflexivity.
Qed.

(** X12.  The handshake of a bot: a session with a device class that is
    not past INIT, once it has sent a decodable PLAIN payload, a bind
    request and a session request, is READY as a bot under the JID
    [authcid@devclass.ecorobot.net/atom] - whatever resource the payload or
    the bind request names - and has been written [<success/>], the bind
    result with that JID and the session result, in this order; one ping
    task was started. *)
Theorem bot_handshake auth payload decoded username bindxml bind rest sessxml s d :
  text auth = Some payload -> payload <> "" ->
  b64decode payload = Some decoded ->
  nth_error (Py.split (hd "" (Py.split decoded "/")) Py.NUL) 1 = Some username ->
  devclass s <> "" -> state s <= INIT ->
  children bindxml = bind :: rest ->
  let r1 := _handle_sasl_auth auth s d in
  let r2 := _handle_bind bindxml (fst r1) (snd r1) in
  let r3 := _handle_session sessxml (fst r2) (snd r2) in
  let jid := username ++ "@" ++ devclass s ++ ".ecorobot.net/atom" in
  state (fst r3) = READY /\ type (fst r3) = BOT /\ uid (fst r3) = username /\
  bumper_jid (fst r3) = jid /\
  sent (fst r3)
  = (sent s ++ [sasl_success; bind_result (get bindxml "id") jid;
                ("<iq type=" ++ Py.q "result" ++ " id="
                 ++ Py.q (Py.str (get sessxml "id")) ++ " />")%string])%list /\
  tasks (fst r3) = (tasks s ++ [schedule_ping_task 30])%list.
Proof.
  intros Htext Hne Hdec Hu Hdev Hst Hkids r1 r2 r3 jid.
  destruct (_handle_sasl_auth_bot auth payload decoded username s d
              Htext Hne Hdec Hu Hdev)
    as (s2 & Hu2 & Hd2 & Hst2 & Hj2 & Htr2 & Hta2 & Hr1).
  assert (H1 : r1 = (with_state INIT (send sasl_success (with_type BOT s2)),
                     bot_add username username (devclass s) "atom" "eco-legacy" d)).
  { subst r1. rewrite Hr1. apply set_state_to; [reflexivity| |discriminate].
    cbn [state send with_transport with_type]. lia. }
  assert (H2 : fst r2
               = send (bind_result (get bindxml "id") jid)
                   (with_state BIND
                      (with_bumper_jid jid (fst r1)))).
  { subst r2. rewrite H1. cbn [fst snd]. unfold _handle_bind. rewrite Hkids.
    cbn [devclass uid with_state send with_transport with_type].
    rewrite Hd2, (truthy_nonempty _ Hdev), Hu2. fold jid.
    rewrite set_state_to with (v := BIND); [reflexivity|reflexivity| |discriminate].
    cbv. congruence. }
  assert (H3 : fst r3
               = spawn (schedule_ping_task 30)
                   (send ("<iq type=" ++ Py.q "result" ++ " id="
                          ++ Py.q (Py.str (get sessxml "id")) ++ " />")
                         (with_state READY (fst r2)))).
  { subst r3. rewrite _handle_session_ready; [reflexivity|].
    rewrite H2. cbv. congruence. }
  rewrite H3, H2, H1. cbn. unfold sent.
  rewrite Hu2, Htr2, Hta2, <- !app_assoc. repeat split; reflexivity.
Qed.

Lemma _handle_sasl_auth_controller xml payload decoded username s d :
  text xml = Some payload -> payload <> "" ->
  b64decode payload = Some decoded ->
  nth_error (Py.split (hd "" (Py.split decoded "/")) Py.NUL) 1 = Some username ->
  devclass s = "" -> state s <= INIT ->
  check_authcode username (nth 2 (Py.split decoded "/") "") d || negb use_auth
  = true ->
  exists s2,
    uid s2 = username /\ devclass s2 = "" /\
    bumper_jid s2 = bumper_jid s /\ transport s2 = transport s /\
    tasks s2 = tasks s /\
    _handle_sasl_auth xml s d
    = (send sasl_success (with_state INIT (with_type CONTROLLER s2)),
       client_add username "bumper" (clientresource s2) d).
Proof.
  intros Htext Hne Hdec Hu Hdev Hst Hok.
  destruct (sasl_identified decoded username s Hu)
    as (resource & authcode & s2 & Hf & Hcode & Hs2 & Hu2 & Hd2 & Hst2 & _ & Hj2
        & Htr2 & Hta2 & _).
  exists s2. rewrite Hd2. repeat (split; [assumption|]).
  unfold _handle_sasl_auth.
  rewrite Htext, (truthy_nonempty payload Hne), Hdec, Hf. cbn [negb].
  rewrite <- Hs2, Hd2, Hdev, Hu2, Hcode, Hok.
  cbn [Py.truthy String.eqb negb uid with_type clientresource].
  rewrite Hu2.
  rewrite set_state_to with (v := INIT); [reflexivity|reflexivity| |discriminate].
  cbn [state with_type]. lia.
Qed.

(** X13.  The handshake of a controller: a session without device class
    that is not past INIT and whose payload is accepted is, after a bind
    and a session request, READY as a controller.  When the bind request
    names a resource the JID is [authcid@ecouser.net/resource] and that
    resource replaces the one read off the payload; when the bind element
    is empty the JID is the bare [authcid@ecouser.net].  Either way the
    session was written [<success/>], the bind result with its JID and the
    session result, in this order. *)
Theorem controller_handshake
  auth payload decoded username bindxml bind rest sessxml s d :
  text auth = Some payload -> payload <> "" ->
  b64decode payload = Some decoded ->
  nth_error (Py.split (hd "" (Py.split decoded "/")) Py.NUL) 1 = Some username ->
  devclass s = "" -> state s <= INIT ->
  check_authcode username (nth 2 (Py.split decoded "/") "") d || negb use_auth
  = true ->
  children bindxml = bind :: rest ->
  let r1 := _handle_sasl_auth auth s d in
  let r2 := _handle_bind bindxml (fst r1) (snd r1) in
  let r3 := _handle_session sessxml (fst r2) (snd r2) in
  let established jid :=
    state (fst r3) = READY /\ type (fst r3) = CONTROLLER /\
    uid (fst r3) = username /\ bumper_jid (fst r3) = jid /\
    sent (fst r3)
    = (sent s ++ [sasl_success; bind_result (get bindxml "id") jid;
                  ("<iq type=" ++ Py.q "result" ++ " id="
                   ++ Py.q (Py.str (get sessxml "id")) ++ " />")%string])%list in
  (forall r rs resource,
      children bind = r :: rs -> text r = Some resource -> resource <> "" ->
      established (username ++ "@" ++ server_id ++ "/" ++ resource) /\
      clientresource (fst r3) = resource) /\
  (children bind = [] ->
   established (username ++ "@" ++ server_id) /\
   clientresource (fst r3) = clientresource (fst r1)).
Proof.
  intros Htext Hne Hdec Hu Hdev Hst Hok Hkids r1 r2 r3 established.
  destruct (_handle_sasl_auth_controller auth payload decoded username s d
              Htext Hne Hdec Hu Hdev Hst Hok)
    as (s2 & Hu2 & Hd2 & Hj2 & Htr2 & Hta2 & Hr1).
  assert (Hses : forall s', state s' = BIND ->
            fst (_handle_session sessxml s' (snd r2))
            = spawn (schedule_ping_task 30)
                (send ("<iq type=" ++ Py.q "result" ++ " id="
                       ++ Py.q (Py.str (get sessxml "id")) ++ " />")
                      (with_state READY s'))).
  { intros s' Hs'. rewrite _handle_session_ready; [reflexivity|].
    rewrite Hs'. cbv. congruence. }
  split.
  - intros r rs resource Hb Ht Hres.
    assert (H2 : fst r2
                 = send (bind_result (get bindxml "id")
                           (username ++ "@" ++ server_id ++ "/" ++ resource))
                     (with_state BIND
                        (with_bumper_jid
                           (username ++ "@" ++ server_id ++ "/" ++ resource)
                           (with_clientresource resource (fst r1))))).
    { subst r2. unfold r1. rewrite Hr1. cbn [fst snd]. unfold _handle_bind.
      rewrite Hkids.
      cbn [devclass uid with_state send with_transport with_type].
      rewrite Hd2, Hb, Ht, (truthy_nonempty _ Hres), Hu2.
      cbn [Py.truthy String.eqb negb].
      rewrite set_state_to with (v := BIND);
        [reflexivity|reflexivity| |discriminate].
      cbv. congruence. }
    subst r3 established. cbv beta. rewrite (Hses (fst r2)) by (rewrite H2; reflexivity).
    rewrite H2. unfold r1. rewrite Hr1. cbn. unfold sent.
    rewrite Hu2, Htr2, <- !app_assoc. repeat split; reflexivity.
  - intros Hb.
    assert (H2 : fst r2
                 = send (bind_result (get bindxml "id")
                           (username ++ "@" ++ server_id))
                     (with_state BIND
                        (with_bumper_jid (username ++ "@" ++ server_id)
                           (fst r1)))).
    { subst r2. unfold r1. rewrite Hr1. cbn [fst snd]. unfold _handle_bind.
      rewrite Hkids.
      cbn [devclass uid with_state send with_transport with_type].
      rewrite Hd2, Hb, Hu2.
      cbn [Py.truthy String.eqb negb].
      rewrite set_state_to with (v := BIND);
        [reflexivity|reflexivity| |discriminate].
      cbv. congruence. }
    subst r3 established. cbv beta. rewrite (Hses (fst r2)) by (rewrite H2; reflexivity).
    rewrite H2. unfold r1. rewrite Hr1. cbn. unfold sent.
    rewrite Hu2, Htr2, <- !app_assoc. repeat split; reflexivity.
Qed.

(** X14.  A bind request whose resource element is empty is dropped after
    the store was touched: a session without device class is neither
    answered nor moved, and gets no JID, while the online flags of the bot
    and of the client on record were already set. *)
Theorem bind_with_empty_resource_is_dropped xml bind rest r rs s d :
  devclass s = "" ->
  children xml = bind :: rest -> children bind = r :: rs ->
  text r = None \/ text r = Some "" ->
  let d1 := match bot_get (uid s) d with
            | Some did => bot_set_xmpp did true d
            | None => d
            end in
  _handle_bind xml s d
  = (s, match client_get (clientresource s) d1 with
        | Some resource => client_set_xmpp resource true d1
        | None => d1
        end).
Proof.
  intros Hdev Hkids Hb Ht d1. unfold _handle_bind.
  rewrite Hkids, Hdev, Hb. cbn [Py.truthy String.eqb negb].
  destruct Ht as [-> | ->]; reflexivity.
Qed.

(** X15.  Every session request is answered and starts a ping task, also
    when the change of state is refused: a session that repeats the
    request, or sends it after it disconnected, is written the result
    again and gets one more ping task, and its state does not go back. *)
Theorem session_request_always_starts_a_ping xml s d :
  let r := _handle_session xml s d in
  sent (fst r)
  = (sent s ++ [("<iq type=" ++ Py.q "result" ++ " id="
                 ++ Py.q (Py.str (get xml "id")) ++ " />")%string])%list /\
  tasks (fst r) = (tasks s ++ [schedule_ping_task 30])%list /\
  (READY < state s -> state (fst r) = state s /\ snd r = d) /\
  (state s <= READY -> state (fst r) = READY).
Proof.
  intros r. subst r. unfold _handle_session, set_state.
  change (getattr "READY") with (Some READY). cbv iota.
  destruct (state s >? READY) eqn:Hgt; cbn; unfold sent;
    repeat split; try reflexivity; intros; lia.
Qed.

(** X16.  SASL is taken in any state.  A session with a device class that
    is already past INIT and sends a decodable payload is answered
    [<success/>], becomes a bot under the uid of the payload and is
    registered again, while its state and its JID stay: from then on it is
    routed to by the new uid and set apart by the old JID. *)
Theorem bot_can_reauthenticate xml payload decoded username s d :
  text xml = Some payload -> payload <> "" ->
  b64decode payload = Some decoded ->
  nth_error (Py.split (hd "" (Py.split decoded "/")) Py.NUL) 1 = Some username ->
  devclass s <> "" -> INIT < state s ->
  let r := _handle_sasl_auth xml s d in
  state (fst r) = state s /\ bumper_jid (fst r) = bumper_jid s /\
  uid (fst r) = username /\ type (fst r) = BOT /\
  sent (fst r) = (sent s ++ [sasl_success])%list /\
  snd r = bot_add username username (devclass s) "atom" "eco-legacy" d.
Proof.
  intros Htext Hne Hdec Hu Hdev Hst r.
  destruct (_handle_sasl_auth_bot xml payload decoded username s d
              Htext Hne Hdec Hu Hdev)
    as (s2 & Hu2 & Hd2 & Hst2 & Hj2 & Htr2 & Hta2 & Hr).
  subst r. rewrite Hr.
  rewrite set_state_rejects with (v := INIT); [|reflexivity|].
  - cbn. unfold sent. rewrite Hst2, Hj2, Hu2, Htr2. repeat split; reflexivity.
  - cbn [state send with_transport with_type]. lia.
Qed.

End Handshake.

(** ** Chunks that do not parse, stream openings, presence, shutdown *)

Section Edges.

Context {E : Externals}.

Lemma set_state_identity name s d :
  let s' := fst (set_state name s d) in
  uid s' = uid s /\ type s' = type s /\ bumper_jid s' = bumper_jid s /\
  clientresource s' = clientresource s /\ devclass s' = devclass s /\
  tasks s' = tasks s /\ sent s' = sent s.
Proof.
  unfold set_state. destruct (getattr name) as [v|]; [|repeat split].
  destruct (state s >? v); [repeat split|].
  destruct (v =? 5); repeat split.
Qed.

Lemma _handle_connect_opening data s d :
  let s' := fst (_handle_connect data None s d) in
  uid s' = uid s /\ type s' = type s /\ bumper_jid s' = bumper_jid s /\
  clientresource s' = clientresource s /\ tasks s' = tasks s /\
  snd (_handle_connect data None s d) = d /\
  (length (sent s') <= length (sent s) + 2)%nat.
Proof.
  unfold _handle_connect, sent.
  destruct (state s =? CONNECT).
  - destruct (Py.find data "jabber:client" >? -1).
    + destruct (Py.find data ".ecorobot.net" >? -1);
        match goal with
        | |- context [if ?b then _ else _] => destruct b
        end; cbn; rewrite !length_app; cbn; repeat split; lia.
    + cbn. rewrite length_app. cbn. repeat split; lia.
  - destruct (state s =? INIT); [|cbn; repeat split; lia].
    destruct (Py.find data "jabber:client" >? -1); cbn;
      rewrite ?length_app; cbn; repeat split; lia.
Qed.

(** X17.  A chunk that the XML parser refuses stays with its session: no
    peer is written to, and the session keeps its uid, kind, JID, resource
    and tasks; it is written two stanzas at most (a stream header with its
    features, or a closing tag). *)
Theorem unparsable_chunk_stays_local data msg w :
  fromstring (wrap_root data) = ParseError msg ->
  let w' := parse_data data w in
  before w' = before w /\ after w' = after w /\
  uid (self w') = uid (self w) /\ type (self w') = type (self w) /\
  bumper_jid (self w') = bumper_jid (self w) /\
  clientresource (self w') = clientresource (self w) /\
  tasks (self w') = tasks (self w) /\
  (length (sent (self w')) <= length (sent (self w)) + 2)%nat.
Proof.
  intros Hparse w'. subst w'. unfold parse_data. rewrite Hparse.
  assert (Hsame : before w = before w /\ after w = after w /\
            uid (self w) = uid (self w) /\ type (self w) = type (self w) /\
            bumper_jid (self w) = bumper_jid (self w) /\
            clientresource (self w) = clientresource (self w) /\
            tasks (self w) = tasks (self w) /\
            (length (sent (self w)) <= length (sent (self w)) + 2)%nat)
    by (repeat split; lia).
  assert (Hopen : let w' := handle_stream_open (wrap_root data) w in
            before w' = before w /\ after w' = after w /\
            uid (self w') = uid (self w) /\ type (self w') = type (self w) /\
            bumper_jid (self w') = bumper_jid (self w) /\
            clientresource (self w') = clientresource (self w) /\
            tasks (self w') = tasks (self w) /\
            (length (sent (self w')) <= length (sent (self w)) + 2)%nat).
  { unfold handle_stream_open. destruct (_ || _); [|exact Hsame].
    unfold on_self_db.
    pose proof (_handle_connect_opening (wrap_root data) (self w) (db w)) as H.
    destruct (_handle_connect (wrap_root data) None (self w) (db w)) as [s d].
    cbn in *. tauto. }
  assert (Hclose : let w' := on_self (send "</stream:stream>") w in
            before w' = before w /\ after w' = after w /\
            uid (self w') = uid (self w) /\ type (self w') = type (self w) /\
            bumper_jid (self w') = bumper_jid (self w) /\
            clientresource (self w') = clientresource (self w) /\
            tasks (self w') = tasks (self w) /\
            (length (sent (self w')) <= length (sent (self w)) + 2)%nat).
  { cbn. unfold sent. cbn. rewrite length_app. cbn. repeat split; lia. }
  destruct (Py.contains "no element found" msg).
  { destruct (Py.contains "<stream:stream " (wrap_root data));
      [exact Hopen|exact Hsame]. }
  destruct (Py.contains "not well-formed (invalid token)" msg).
  { destruct (negb _); [exact Hsame|exact Hclose]. }
  destruct (Py.contains "<stream:stream" (wrap_root data)); [exact Hopen|].
  destruct (negb _); [exact Hsame|].
  unfold on_self_db.
  pose proof (set_state_identity "DISCONNECT"
                (self (on_self (send "</stream:stream>") w))
                (db (on_self (send "</stream:stream>") w))) as H.
  destruct (set_state "DISCONNECT" _ _) as [s d].
  cbn [fst self before after on_self] in *.
  destruct H as (Hu & Hty & Hj & Hr & _ & Hta & Hsent).
  rewrite Hu, Hty, Hj, Hr, Hta, Hsent.
  unfold sent. cbn. rewrite length_app. cbn. repeat split; lia.
Qed.

Lemma prefix_app_self p v : String.prefix p (p ++ v) = true.
Proof.
  induction p as [|a p IH]; [destruct v; reflexivity|].
  cbn. destruct (ascii_dec a a); [exact IH|congruence].
Qed.

Lemma prefix_shorter p u v :
  String.prefix p (u ++ v) = true -> (String.length p <= String.length u)%nat ->
  String.prefix p u = true.
Proof.
  revert u. induction p as [|a p IH]; intros u H Hlen.
  - destruct u; reflexivity.
  - destruct u as [|b u]; [cbn in Hlen; lia|].
    cbn in H |- *. destruct (ascii_dec a b); [|discriminate].
    apply IH; [exact H|cbn in Hlen; lia].
Qed.

Lemma find_from_unfold sub s i :
  Py.find_from sub s i
  = if String.prefix sub s then i
    else match s with
         | EmptyString => -1
         | String _ s' => Py.find_from sub s' (i + 1)
         end.
Proof. destruct s; reflexivity. Qed.

Lemma string_length_app a b :
  String.length (a ++ b) = (String.length a + String.length b)%nat.
Proof. induction a; cbn; [reflexivity|rewrite IHa; reflexivity]. Qed.

Lemma string_app_assoc (a b c : string) : (a ++ b) ++ c = a ++ (b ++ c).
Proof. induction a; cbn; [reflexivity|rewrite IHa; reflexivity]. Qed.

(** The first occurrence: when [p ++ l] does not occur in [a ++ p], it is
    found in [a ++ (p ++ l) ++ b] right after [a]. *)
Lemma find_from_first p l a b i :
  Py.contains (p ++ String l "") (a ++ p) = false ->
  Py.find_from (p ++ String l "") (a ++ (p ++ String l "") ++ b) i
  = i + Z.of_nat (String.length a).
Proof.
  revert i. induction a as [|x a IH]; intros i H.
  - cbn [append String.length]. rewrite find_from_unfold, prefix_app_self.
    cbn. lia.
  - change (String x a ++ p) with (String x (a ++ p)) in H.
    cbn [Py.contains] in H. apply orb_false_iff in H as [Hp Hc].
    change (String x a ++ (p ++ String l "") ++ b)
      with (String x (a ++ (p ++ String l "") ++ b)).
    rewrite find_from_unfold.
    destruct (String.prefix (p ++ String l "")
                (String x (a ++ (p ++ String l "") ++ b))) eqn:Hpre.
    + exfalso.
      assert (Heq : String x (a ++ (p ++ String l "") ++ b)
                    = String x (a ++ p) ++ (String l "" ++ b)).
      { cbn [append]. f_equal.
        rewrite (string_app_assoc p (String l "") b).
        rewrite <- (string_app_assoc a p). reflexivity. }
      rewrite Heq in Hpre.
      apply prefix_shorter in Hpre; [congruence|].
      cbn [String.length]. rewrite !string_length_app. cbn. lia.
    + rewrite (IH (i + 1) Hc). cbn [String.length]. lia.
Qed.

Lemma substring_skip a n m b :
  String.substring (String.length a + n) m (a ++ b) = String.substring n m b.
Proof. induction a; cbn; [reflexivity|exact IHa]. Qed.

Lemma substring_take a b :
  String.substring 0 (String.length a) (a ++ b) = a.
Proof.
  induction a as [|x a IH]; cbn.
  - destruct b; reflexivity.
  - rewrite IH. reflexivity.
Qed.

Lemma opening_up_to_domain pre qc dc post :
  pre ++ "to=" ++ String qc (dc ++ ".ecorobot.net" ++ post)
  = (pre ++ "to=" ++ String qc dc) ++ (".ecorobot.ne" ++ String "t" "") ++ post.
Proof.
  induction pre as [|x pre IH]; cbn [append]; [reflexivity|f_equal; exact IH].
Qed.

Lemma opening_before_domain pre qc dc :
  (pre ++ "to=" ++ String qc dc) ++ ".ecorobot.ne"
  = pre ++ "to=" ++ String qc (dc ++ ".ecorobot.ne").
Proof.
  induction pre as [|x pre IH]; cbn [append]; [reflexivity|f_equal; exact IH].
Qed.

Lemma opening_up_to_class pre qc dc post :
  pre ++ "to=" ++ String qc (dc ++ ".ecorobot.net" ++ post)
  = (pre ++ "to=" ++ String qc "") ++ dc ++ ".ecorobot.net" ++ post.
Proof.
  induction pre as [|x pre IH]; cbn [append]; [reflexivity|f_equal; exact IH].
Qed.

Lemma opening_length pre qc dc :
  String.length (pre ++ "to=" ++ String qc dc)
  = (String.length pre + 4 + String.length dc)%nat.
Proof. rewrite string_length_app. cbn [append String.length]. lia. Qed.

(** X18.  The device class is read off the stream opening: when the
    opening names [jabber:client], its first [to=] is followed by one
    character (the quote) and then by a text that runs up to the first
    [.ecorobot.net] of the chunk, that text becomes the device class of a
    session in CONNECT; the session is written the stream header and the
    features - STARTTLS with SASL as long as it is not upgraded, SASL alone
    afterwards - and stays in CONNECT. *)
Theorem stream_opening_names_the_device_class pre qc dc post s d :
  let data := pre ++ "to=" ++ String qc (dc ++ ".ecorobot.net" ++ post) in
  state s = CONNECT ->
  Py.contains "jabber:client" data = true ->
  Py.contains "to=" (pre ++ "to") = false ->
  Py.contains ".ecorobot.net" (pre ++ "to=" ++ String qc (dc ++ ".ecorobot.ne"))
  = false ->
  let s' := fst (_handle_connect data None s d) in
  devclass s' = dc /\
  sent s'
  = (sent s ++ [stream_header;
                if TLSUpgraded s then features_sasl else features_starttls])%list /\
  state s' = CONNECT.
Proof.
  intros data Hst Hjc Hto Heco s'. subst s'. unfold _handle_connect.
  rewrite Hst. change (CONNECT =? CONNECT) with true. cbv iota.
  assert (Hfj : (Py.find data "jabber:client" >? -1) = true).
  { pose proof (find_contains data "jabber:client") as H. rewrite Hjc in H.
    cbn [negb] in H. apply Z.eqb_neq in H.
    assert (Hge : forall sub t i, 0 <= i -> -1 <= Py.find_from sub t i).
    { intros sub t. induction t as [|a t IHt]; intros i Hi;
        rewrite find_from_unfold;
        destruct (String.prefix sub _); try lia. apply IHt. lia. }
    specialize (Hge "jabber:client" data 0 ltac:(lia)).
    unfold Py.find in *. lia. }
  rewrite Hfj.
  assert (Hsc : Py.find data "to=" = Z.of_nat (String.length pre)).
  { unfold Py.find, data.
    change (pre ++ "to=" ++ String qc (dc ++ ".ecorobot.net" ++ post))
      with (pre ++ ("to" ++ String "=" "")
            ++ String qc (dc ++ ".ecorobot.net" ++ post)).
    rewrite (find_from_first "to" "=" pre _ 0 Hto). lia. }
  assert (Hec : Py.find data ".ecorobot.net"
                = Z.of_nat (String.length pre + 4 + String.length dc)).
  { unfold Py.find, data. rewrite opening_up_to_domain.
    change (Py.find_from ".ecorobot.net")
      with (Py.find_from (".ecorobot.ne" ++ String "t" "")).
    rewrite (find_from_first ".ecorobot.ne" "t" (pre ++ "to=" ++ String qc dc) post 0).
    - rewrite opening_length. lia.
    - rewrite opening_before_domain. exact Heco. }
  rewrite Hsc, Hec.
  assert (Hpos : (Z.of_nat (String.length pre + 4 + String.length dc) >? -1)
                 = true) by (apply Z.gtb_lt; lia).
  rewrite Hpos.
  assert (Hslice : Py.slice data (Z.of_nat (String.length pre) + 4)
                     (Z.of_nat (String.length pre + 4 + String.length dc)) = dc).
  { unfold Py.slice.
    replace (Z.to_nat (Z.of_nat (String.length pre) + 4))
      with (String.length (pre ++ "to=" ++ String qc "") + 0)%nat
      by (rewrite opening_length; cbn [String.length]; lia).
    replace (Z.to_nat (Z.of_nat (String.length pre + 4 + String.length dc)
                       - (Z.of_nat (String.length pre) + 4)))
      with (String.length dc) by lia.
    unfold data. rewrite opening_up_to_class, substring_skip.
    apply substring_take. }
  rewrite Hslice. unfold sent.
  destruct (TLSUpgraded s) eqn:Htls; cbn; rewrite Htls; cbn;
    rewrite <- app_assoc; repeat split; try reflexivity; exact Hst.
Qed.

(** X19.  A presence is answered, never forwarded, and changes the session
    in one case only.  It leaves uid, kind and JID alone.  When its first
    child is [status] the session is written the dummy presence first and
    keeps its state, also when the presence is of type [unavailable].  If
    the state changes at all, the presence was of type [unavailable], the
    session is in DISCONNECT with its transport closed, and nothing was
    written to it. *)
Theorem presence_only_disconnects xml s d :
  let s' := fst (_handle_presence xml s d) in
  (uid s' = uid s /\ type s' = type s /\ bumper_jid s' = bumper_jid s) /\
  (forall c rest,
      children xml = c :: rest -> tag c = "status" ->
      state s' = state s /\
      exists more,
        sent s' = (sent s ++ dummy_presence (bumper_jid s) :: more)%list) /\
  (state s' <> state s ->
   get xml "type" = Some "unavailable" /\ state s' = DISCONNECT /\
   closed (transport s') = true /\ sent s' = sent s).
Proof.
  intros s'. subst s'. unfold _handle_presence.
  split; [|split].
  - destruct (match children xml with c :: _ => _ | [] => _ end).
    + destruct (type s =? BOT); repeat split.
    + destruct (Py.eq_opt (get xml "type") "available"); [repeat split|].
      destruct (Py.eq_opt (get xml "type") "unavailable"); [|repeat split].
      destruct (set_state_identity "DISCONNECT" s d) as (Hu & Ht & Hj & _).
      repeat split; assumption.
  - intros c rest Hk Ht. rewrite Hk, Ht. cbn [String.eqb Ascii.eqb Bool.eqb].
    unfold sent.
    destruct (type s =? BOT); cbn; (split; [reflexivity|]).
    + eexists. rewrite <- app_assoc. reflexivity.
    + exists []. reflexivity.
  - destruct (match children xml with c :: _ => _ | [] => _ end).
    + destruct (type s =? BOT); cbn; intros H; contradiction.
    + destruct (Py.eq_opt (get xml "type") "available");
        [cbn; intros H; contradiction|].
      destruct (Py.eq_opt (get xml "type") "unavailable") eqn:Hun;
        [|cbn; intros H; contradiction].
      intros Hch.
      assert (Hty : get xml "type" = Some "unavailable").
      { unfold Py.eq_opt in Hun. destruct (get xml "type") as [t|];
          [|discriminate]. apply String.eqb_eq in Hun. congruence. }
      destruct (set_state_evolving "DISCONNECT" s d)
        as (Hst & _ & _ & _ & Hcl).
      destruct (set_state_identity "DISCONNECT" s d) as (_ & _ & _ & _ & _ & _ & Hsent).
      assert (Hd : state (fst (set_state "DISCONNECT" s d)) = DISCONNECT).
      { unfold set_state in *.
        change (getattr "DISCONNECT") with (Some DISCONNECT) in *.
        cbv iota in *.
        destruct (state s >? DISCONNECT); [contradiction|reflexivity]. }
      repeat split; try assumption.
      apply Hcl; [exact Hd|]. intros Hs. apply Hch. congruence.
Qed.

Lemma disconnect_closes registry :
  forall d,
    Forall2 (fun c c' =>
               c' = with_transport (mkTransport (written (transport c)) true) c)
            registry (fst (disconnect registry d)).
Proof.
  induction registry as [|c registry IH]; intros d; cbn [disconnect].
  - constructor.
  - destruct (_disconnect c d) as [c' d1] eqn:Hc.
    specialize (IH d1). destruct (disconnect registry d1) as [rest' d2].
    cbn [fst] in *. constructor; [|exact IH].
    unfold _disconnect in Hc. inversion Hc. reflexivity.
Qed.

(** X20.  Shutting the server down closes every transport and nothing
    more: each session of the registry is afterwards what it was but for
    its transport being closed - its state in particular is not set to
    DISCONNECT - and the registry keeps its sessions and their order. *)
Theorem shutdown_closes_and_keeps_states registry d :
  let registry' := fst (disconnect registry d) in
  Forall2 (fun c c' =>
             c' = with_transport (mkTransport (written (transport c)) true) c)
          registry registry' /\
  map state registry' = map state registry /\
  Forall (fun c' => closed (transport c') = true) registry' /\
  length registry' = length registry.
Proof.
  intros registry'. subst registry'.
  pose proof (disconnect_closes registry d) as H.
  split; [exact H|].
  induction H as [|c c' l l' Hc _ IH]; [repeat split; constructor|].
  destruct IH as (Hs & Hcl & Hlen). subst c'.
  repeat split; cbn; [f_equal; exact Hs| |f_equal; exact Hlen].
  constructor; [reflexivity|exact Hcl].
Qed.

End Edges.

(** ** The further properties at work on the sample environment *)

Import Cases.

(** X2, an instance: a controller that disconnected is sent a closing tag
    and a ping falls due; it is still in DISCONNECT. *)
Lemma disconnect_is_final_witness :
  state (self (run [data_received lone_close; ping_due]
                   (world true [bot1] gone [])))
  = DISCONNECT.
Proof.
  apply (proj2 (@disconnect_is_final (env true)
                  [data_received lone_close; ping_due]
                  (world true [bot1] gone []))).
  reflexivity.
Defined.

(** X3, an instance: an upgraded session over a STARTTLS task and a
    chunk. *)
Lemma tls_flag_is_raised_once_witness :
  TLSUpgraded (self (run [starttls_due; data_received session_chunk]
                         (world true [] ctl1 [])))
  = true.
Proof.
  apply (proj1 (proj2 (@tls_flag_is_raised_once (env true)))).
  reflexivity.
Defined.

(** X4, an instance: the closing tag of a ready controller. *)
Lemma chunk_to_disconnect_closes_witness :
  closed (transport (self (parse_data lone_close (world true [bot1] ctl1 []))))
  = true.
Proof.
  apply (proj1 (@chunk_to_disconnect_closes (env true) lone_close
                  (world true [bot1] ctl1 []))).
  - reflexivity.
  - discriminate.
Defined.

(** X5, an instance: a ready controller is sent the broadcast twice, the
    bot and a session in CONNECT once. *)
Lemma broadcast_is_doubled_for_ready_peers_witness :
  let x := iq_result "de.ecorobot.net" in
  let F := clean_ctl (print_element (set_default_from x (bumper_jid bot1))) in
  map sent (clients (_handle_result x (chunk_of x)
                       (world false [ctl1] bot1 [fresh])))
  = [[F; F]; [F]; [F]].
Proof.
  intros x F.
  rewrite (@broadcast_is_doubled_for_ready_peers (env false) x (chunk_of x)
             (world false [ctl1] bot1 [fresh]) eq_refl eq_refl eq_refl).
  reflexivity.
Defined.

(** X6, an instance: the denial, sent by a controller, has no effect. *)
Lemma permission_denied_is_never_forwarded_witness :
  let x := iq_denied "SN123@xyz.ecorobot.net" in
  let w := world false [bot1] ctl1 [] in
  _handle_result x (denied_chunk "SN123@xyz.ecorobot.net") w = w.
Proof.
  intros x w.
  apply (@permission_denied_is_never_forwarded (env false) x
           (denied_chunk "SN123@xyz.ecorobot.net") w eq_refl).
  discriminate.
Defined.

(** X7, an instance: the answer of a bot to user42 also goes to a session
    that never authenticated. *)
Lemma session_without_uid_receives_everything_witness :
  let x := iq_result "user42@ecouser.net/mobile" in
  let w := world false [ghost] bot1 [ctl1] in
  let w' := _handle_result x (chunk_of x) w in
  In (send (clean_ctl (print_element (set_default_from x (bumper_jid bot1))))
           ghost)
     (before w' ++ after w').
Proof.
  intros x w w'.
  apply (proj1 (@session_without_uid_receives_everything (env false) x
                  (chunk_of x) w ghost "user42@ecouser.net/mobile"
                  (or_introl eq_refl) eq_refl eq_refl
                  ltac:(discriminate) eq_refl ltac:(discriminate)));
    reflexivity.
Defined.

(** X9, an instance: a ping to [ecouser.net]. *)
Lemma ping_for_the_server_and_ping_without_to_witness :
  let w := world false [bot1] ctl1 [] in
  _handle_ping (ping_iq "ecouser.net") w
  = on_self (send (ping_result (ping_iq "ecouser.net"))) w.
Proof.
  intros w.
  apply (proj1 (@ping_for_the_server_and_ping_without_to (env false)
                  (ping_iq "ecouser.net") w) "ecouser.net");
    (reflexivity || discriminate).
Defined.

(** X10, an instance: the tag of a bind element. *)
Lemma tag_strip_uri_keeps_the_local_name_witness :
  _tag_strip_uri "{urn:ietf:params:xml:ns:xmpp-bind}bind" = "bind".
Proof.
  apply (proj1 tag_strip_uri_keeps_the_local_name
           "urn:ietf:params:xml:ns:xmpp-bind" "bind").
  reflexivity.
Defined.

(** X11, an instance: user42, mobile, secret. *)
Lemma sasl_payload_forms_witness :
  @sasl_fields (String Py.NUL "user42" ++ String Py.NUL "mobile")
  = Some ("user42", Some "mobile", "") /\
  @sasl_fields (String Py.NUL "user42" ++ "/" ++ "mobile" ++ "/" ++ "secret")
  = Some ("user42", Some "mobile", "secret").
Proof.
  destruct (sasl_payload_forms "user42" "mobile" "secret"
              eq_refl eq_refl eq_refl eq_refl eq_refl eq_refl)
    as (H1 & _ & H3).
  split; [exact H1|exact H3].
Defined.

(** X12, an instance: the bot of the scenario, from CONNECT to READY. *)
Lemma bot_handshake_witness :
  let r1 := @_handle_sasl_auth (env true) (auth_element "AFNOMTIzAHB3")
              fresh_bot [] in
  let r2 := _handle_bind (bind_iq [resource_element (Some "device")])
              (fst r1) (snd r1) in
  let r3 := _handle_session session_iq (fst r2) (snd r2) in
  state (fst r3) = READY /\ type (fst r3) = BOT /\ uid (fst r3) = "SN123" /\
  bumper_jid (fst r3) = "SN123@xyz.ecorobot.net/atom".
Proof.
  intros r1 r2 r3.
  destruct (@bot_handshake (env true) (auth_element "AFNOMTIzAHB3")
              "AFNOMTIzAHB3" (String Py.NUL "SN123" ++ String Py.NUL "pw")
              "SN123" (bind_iq [resource_element (Some "device")])
              (mkElement "{urn:ietf:params:xml:ns:xmpp-bind}bind" [] None
                 [resource_element (Some "device")])
              [] session_iq fresh_bot []
              eq_refl ltac:(discriminate) eq_refl eq_refl
              ltac:(discriminate) ltac:(discriminate) eq_refl)
    as (H1 & H2 & H3 & H4 & _).
  repeat split; assumption.
Defined.

(** X13, an instance: user42 binds the resource [phone], which replaces
    the [mobile] of the payload. *)
Lemma controller_handshake_witness :
  let r1 := @_handle_sasl_auth (env true)
              (auth_element "AHVzZXI0Mi9tb2JpbGUvc2VjcmV0") fresh [] in
  let r2 := _handle_bind (bind_iq [resource_element (Some "phone")])
              (fst r1) (snd r1) in
  let r3 := _handle_session session_iq (fst r2) (snd r2) in
  clientresource (fst r1) = "mobile" /\
  state (fst r3) = READY /\ type (fst r3) = CONTROLLER /\
  bumper_jid (fst r3) = "user42@ecouser.net/phone" /\
  clientresource (fst r3) = "phone".
Proof.
  intros r1 r2 r3.
  destruct (@controller_handshake (env true)
              (auth_element "AHVzZXI0Mi9tb2JpbGUvc2VjcmV0")
              "AHVzZXI0Mi9tb2JpbGUvc2VjcmV0"
              (String Py.NUL "user42/mobile/secret") "user42"
              (bind_iq [resource_element (Some "phone")])
              (mkElement "{urn:ietf:params:xml:ns:xmpp-bind}bind" [] None
                 [resource_element (Some "phone")])
              [] session_iq fresh []
              eq_refl ltac:(discriminate) eq_refl eq_refl eq_refl
              ltac:(discriminate) eq_refl eq_refl)
    as (Hres & _).
  destruct (Hres (resource_element (Some "phone")) [] "phone"
              eq_refl eq_refl ltac:(discriminate))
    as ((H1 & H2 & _ & H4 & _) & H5).
  split; [reflexivity|]. repeat split; assumption.
Defined.

(** X14, an instance: an authenticated controller sends a bind request
    with an empty resource element. *)
Lemma bind_with_empty_resource_is_dropped_witness :
  let s := with_state INIT (with_uid "user42" fresh) in
  fst (@_handle_bind (env true) (bind_iq [resource_element None]) s []) = s.
Proof.
  intros s.
  rewrite (@bind_with_empty_resource_is_dropped (env true)
             (bind_iq [resource_element None])
             (mkElement "{urn:ietf:params:xml:ns:xmpp-bind}bind" [] None
                [resource_element None])
             [] (resource_element None) [] s []
             eq_refl eq_refl eq_refl (or_introl eq_refl)).
  reflexivity.
Defined.

(** X15, an instance: a session request after the disconnection. *)
Lemma session_request_always_starts_a_ping_witness :
  let r := @_handle_session (env true) session_iq gone [] in
  state (fst r) = DISCONNECT /\ snd r = [].
Proof.
  apply (proj1 (proj2 (proj2
           (@session_request_always_starts_a_ping (env true) session_iq
              gone [])))).
  reflexivity.
Defined.

(** X16, an instance: the ready bot SN123 sends the payload of user42. *)
Lemma bot_can_reauthenticate_witness :
  let r := @_handle_sasl_auth (env true) (auth_element "AHVzZXI0MgBzZWNyZXQ=")
             bot1 [] in
  state (fst r) = READY /\ bumper_jid (fst r) = "SN123@xyz.ecorobot.net/atom" /\
  uid (fst r) = "user42" /\ type (fst r) = BOT /\
  sent (fst r) = [sasl_success] /\
  snd r = [BotAdd "user42" "user42" "xyz" "atom" "eco-legacy"].
Proof.
  apply (@bot_can_reauthenticate (env true)
           (auth_element "AHVzZXI0MgBzZWNyZXQ=") "AHVzZXI0MgBzZWNyZXQ="
           (String Py.NUL "user42" ++ String Py.NUL "secret") "user42" bot1 []);
    (reflexivity || discriminate).
Defined.

(** X17, an instance: the closing tag, which expat refuses. *)
Lemma unparsable_chunk_stays_local_witness :
  let w := world true [bot1] ctl1 [ctl2] in
  before (parse_data lone_close w) = [bot1] /\
  after (parse_data lone_close w) = [ctl2] /\
  uid (self (parse_data lone_close w)) = "user42".
Proof.
  intros w.
  destruct (@unparsable_chunk_stays_local (env true) lone_close
              "mismatched tag: line 1, column 8" w eq_refl)
    as (Hb & Ha & Hu & _).
  repeat split; assumption.
Defined.

(** X18, an instance: the opening of a bot of class [xyz]. *)
Lemma stream_opening_names_the_device_class_witness :
  let data := opening_before ++ "to=" ++ "'xyz.ecorobot.net" ++ opening_after in
  let s' := fst (@_handle_connect (env true) data None fresh []) in
  devclass s' = "xyz" /\
  sent s' = [stream_header; features_starttls] /\
  state s' = CONNECT.
Proof.
  apply (@stream_opening_names_the_device_class (env true) opening_before
           "'" "xyz" opening_after fresh []); reflexivity.
Defined.

(** X19, an instance: a presence of type [unavailable] that carries a
    status leaves a ready bot in READY. *)
Lemma presence_only_disconnects_witness :
  state (fst (@_handle_presence (env true) (presence "unavailable" [status])
                bot1 []))
  = READY.
Proof.
  apply (proj1 (proj2 (@presence_only_disconnects (env true)
                         (presence "unavailable" [status]) bot1 []))
           status []); reflexivity.
Defined.

(** X21, an instance: the printed form of a result without query. *)
Lemma cleanup_leaves_plain_stanzas_witness :
  clean_ctl "<iq id='q1' type='result' to='user42@ecouser.net' />"
  = "<iq id='q1' type='result' to='user42@ecouser.net' />".
Proof.
  apply (proj1 (cleanup_leaves_plain_stanzas
                  "<iq id='q1' type='result' to='user42@ecouser.net' />"
                  eq_refl eq_refl)); reflexivity.
Defined.
